(** * Visitor-pass middleware: a shallow embedding of [visitors/middleware.py]

    The three middleware classes of [visitors/middleware.py]
    ([VisitorRequestMiddleware], [VisitorSessionMiddleware],
    [VisitorCountMiddleware]) are embedded as functions that take the next
    handler [get_response] and a request, and run in a small state-and-error
    monad over the persisted world (visitor table, clock, write log).

    [visitors/settings.py] is embedded as a configuration record.
    [visitors/models.py] and [visitors/session.py] are not part of the
    sources at hand; what the middleware calls from them is modelled from the
    specification and marked as such. *)

From stdpp Require Import base option gmap strings list.
From Stdlib Require Import ZArith Lia.

Set Default Proof Using "Type".

(** ** settings.py *)

Module settings.

(** The module-level constants of [settings.py]; each is
    [_setting(KEY, default)], that is the Django setting when the project
    defines it and the default otherwise. A [Config] is one resolution of
    the five constants. *)
Record Config := {
  VISITOR_SESSION_KEY : string;
  VISITOR_QUERYSTRING_KEY : string;
  VISITOR_SESSION_EXPIRY : option Z;
  VISITOR_TOKEN_EXPIRY : Z;
  DEFAULT_MAX_LINK_USAGES_ALLOWED : Z
}.

(** [_setting(key, default) = getattr(settings, key, default)]. *)
Definition _setting {A : Type} (configured : option A) (default : A) : A :=
  match configured with
  | Some x => x
  | None => default
  end.

(** What a Django project may define. *)
Record DjangoSettings := {
  dj_VISITOR_SESSION_KEY : option string;
  dj_VISITOR_QUERYSTRING_KEY : option string;
  dj_VISITOR_SESSION_EXPIRY : option (option Z);
  dj_VISITOR_TOKEN_EXPIRY : option Z;
  dj_DEFAULT_MAX_LINK_USAGES_ALLOWED : option Z
}.

Definition load (s : DjangoSettings) : Config := {|
  VISITOR_SESSION_KEY := _setting (dj_VISITOR_SESSION_KEY s) "visitor:session";
  VISITOR_QUERYSTRING_KEY := _setting (dj_VISITOR_QUERYSTRING_KEY s) "vuid";
  VISITOR_SESSION_EXPIRY := _setting (dj_VISITOR_SESSION_EXPIRY s) (Some 0%Z);
  VISITOR_TOKEN_EXPIRY := _setting (dj_VISITOR_TOKEN_EXPIRY s) 300%Z;
  DEFAULT_MAX_LINK_USAGES_ALLOWED :=
    _setting (dj_DEFAULT_MAX_LINK_USAGES_ALLOWED s) 10%Z
|}.

(** A project that overrides nothing. *)
Definition defaults : Config :=
  load {| dj_VISITOR_SESSION_KEY := None;
          dj_VISITOR_QUERYSTRING_KEY := None;
          dj_VISITOR_SESSION_EXPIRY := None;
          dj_VISITOR_TOKEN_EXPIRY := None;
          dj_DEFAULT_MAX_LINK_USAGES_ALLOWED := None |}.

End settings.
Import settings.

(** ** Exceptions, and the monad the request handlers run in *)

Inductive exn :=
| DoesNotExist
| InvalidVisitorPass (msg : string)
| AttributeError (msg : string).

Inductive result (A : Type) :=
| Ok (a : A)
| Raise (e : exn).
Arguments Ok {A} a.
Arguments Raise {A} e.

(** ** The persisted visitor and the world a request runs in *)

Record Visitor := {
  uuid : string;
  email : string;
  scope : string;
  created_at : Z;
  is_active : bool;
  usage_count : Z;
  max_usages_allowed : Z
}.

Definition set_is_active (b : bool) (v : Visitor) : Visitor :=
  {| uuid := uuid v; email := email v; scope := scope v;
     created_at := created_at v; is_active := b;
     usage_count := usage_count v;
     max_usages_allowed := max_usages_allowed v |}.

Definition set_usage_count (n : Z) (v : Visitor) : Visitor :=
  {| uuid := uuid v; email := email v; scope := scope v;
     created_at := created_at v; is_active := is_active v;
     usage_count := n;
     max_usages_allowed := max_usages_allowed v |}.

(** The visitor table keyed by identifier, the clock read by token expiry,
    and the log of rows written by [save], most recent first. *)
Record World := {
  db : gmap string Visitor;
  now : Z;
  saved : list Visitor
}.

Definition set_now (t : Z) (w : World) : World :=
  {| db := db w; now := t; saved := saved w |}.

(** One persistence write: the row of the visitor's identifier now holds
    [v], and the write is logged. *)
Definition write (v : Visitor) (w : World) : World :=
  {| db := <[uuid v := v]> (db w); now := now w; saved := v :: saved w |}.

(** A computation reads and writes the world and returns or raises. What
    was written before an exception stays written. *)
Definition M (A : Type) : Type := World -> result A * World.

Definition ret {A : Type} (a : A) : M A := fun w => (Ok a, w).

Definition bind {A B : Type} (m : M A) (k : A -> M B) : M B :=
  fun w =>
    match m w with
    | (Ok a, w') => k a w'
    | (Raise e, w') => (Raise e, w')
    end.

Definition raise {A : Type} (e : exn) : M A := fun w => (Raise e, w).

Notation "x <~ m ;; k" := (bind m (fun x => k))
  (at level 100, m at next level, right associativity).
Notation "m ;;; k" := (bind m (fun _ => k))
  (at level 100, right associativity).

(** ** What the middleware uses of models.py *)

Module models.

(** Modelled from the spec: [Visitor.objects.get(uuid=..)] and
    [Visitor.objects.get(uuid=.., is_active=True)] of the missing
    [models.py], after the persistence interface
    [find_by_identifier(id) -> Visitor?] and
    [find_active_by_identifier(id) -> Visitor?]; identifiers are unique,
    so a lookup finds one row or raises [DoesNotExist]. The optional
    argument is the [is_active=] filter. *)
Definition objects_get (id : string) (active : option bool) : M Visitor :=
  fun w =>
    match db w !! id with
    | Some v =>
        match active with
        | None => (Ok v, w)
        | Some b =>
            if bool_decide (is_active v = b) then (Ok v, w)
            else (Raise DoesNotExist, w)
        end
    | None => (Raise DoesNotExist, w)
    end.

(** Modelled from the spec: [Visitor.save()] of the missing [models.py],
    after [save(Visitor) -> void]: the row of the visitor's identifier
    now holds the in-memory object. *)
Definition save (v : Visitor) : M () :=
  fun w => (Ok (), write v w).

(** Modelled from the spec: [Visitor.deactivate()] of the missing
    [models.py], after [deactivate(Visitor) -> void]: is_active becomes
    false and the row is persisted. Returns the updated object. *)
Definition deactivate (v : Visitor) : M Visitor :=
  let v := set_is_active false v in
  save v ;;; ret v.

(** Modelled from the spec: the validity predicate of section 3, is_active
    and (current time - created_at) <= token expiry window. *)
Definition is_valid (cfg : Config) (t : Z) (v : Visitor) : bool :=
  is_active v && bool_decide (t - created_at v ≤ VISITOR_TOKEN_EXPIRY cfg)%Z.

(** Modelled from the spec: [Visitor.validate()] of the missing
    [models.py]. The middleware's handler for [InvalidVisitorPass] only
    logs, so the deactivation that section 4.1 attributes to the failed
    validation of an existing record (the explicit deactivation operation
    invoked when validation detects an invalid-but-extant record)
    happens here, before the exception is raised. *)
Definition validate (cfg : Config) (v : Visitor) : M () :=
  fun w =>
    if is_valid cfg (now w) v then (Ok (), w)
    else (deactivate v ;;; raise (InvalidVisitorPass "invalid visitor pass")) w.

End models.

(** ** The request *)

(** [request.GET], [request.session], [request.visitor] and
    [request.user.is_visitor]. *)
Record HttpRequest := {
  GET : gmap string string;
  session : gmap string string;
  visitor : option Visitor;
  is_visitor : bool
}.

Definition set_visitor (o : option Visitor) (r : HttpRequest) : HttpRequest :=
  {| GET := GET r; session := session r; visitor := o;
     is_visitor := is_visitor r |}.

Definition set_user_is_visitor (b : bool) (r : HttpRequest) : HttpRequest :=
  {| GET := GET r; session := session r; visitor := visitor r;
     is_visitor := b |}.

Definition set_session (s : gmap string string) (r : HttpRequest) : HttpRequest :=
  {| GET := GET r; session := s; visitor := visitor r;
     is_visitor := is_visitor r |}.

(** Python truthiness of an optional string: [None] and the empty string
    are false. *)
Definition truthy (o : option string) : bool :=
  match o with
  | Some s => negb (bool_decide (s = ""))
  | None => false
  end.

(** ** What the middleware uses of session.py *)

Module session.

(** Modelled from the spec: [session.stash_visitor_uuid(request)] of the
    missing [session.py]: write the visitor's identifier into the session
    under the fixed key. Without a visitor on the request the attribute
    access fails. How long the session store keeps the entry
    ([VISITOR_SESSION_EXPIRY]) is left to the store. *)
Definition stash_visitor_uuid (cfg : Config) (request : HttpRequest)
  : M HttpRequest :=
  match visitor request with
  | Some v =>
      ret (set_session (<[VISITOR_SESSION_KEY cfg := uuid v]> (session request))
             request)
  | None => raise (AttributeError "'NoneType' object has no attribute")
  end.

(** Modelled from the spec: [session.get_visitor_uuid(request)] of the
    missing [session.py], after [get(key) -> string?]. *)
Definition get_visitor_uuid (cfg : Config) (request : HttpRequest)
  : option string :=
  session request !! VISITOR_SESSION_KEY cfg.

(** Modelled from the spec: [session.clear_visitor_uuid(request)] of the
    missing [session.py], after [delete(key) -> void]. *)
Definition clear_visitor_uuid (cfg : Config) (request : HttpRequest)
  : HttpRequest :=
  set_session (delete (VISITOR_SESSION_KEY cfg) (session request)) request.

End session.

(** ** middleware.py *)

Module middleware.
Section with_config.

Context (cfg : Config).
Context {R : Type}.

(** [get_response]: the rest of the chain. *)
Local Abbreviation Handler := (HttpRequest -> M R).

(** The [try] block of [VisitorRequestMiddleware.__call__]. *)
Definition lookup_and_validate (visitor_uuid : string) : M Visitor :=
  visitor <~ models.objects_get visitor_uuid None ;;
  models.validate cfg visitor ;;;
  ret visitor.

(** [VisitorRequestMiddleware.__call__]: extract the visitor token from
    the incoming request. *)
Definition VisitorRequestMiddleware (get_response : Handler) : Handler :=
  fun request =>
    let request := set_visitor None request in
    let request := set_user_is_visitor false request in
    let visitor_uuid := GET request !! VISITOR_QUERYSTRING_KEY cfg in
    if negb (truthy visitor_uuid) then get_response request
    else
      (* a truthy [visitor_uuid] is a string *)
      fun w =>
        match lookup_and_validate (default "" visitor_uuid) w with
        | (Raise DoesNotExist, w) => get_response request w
        | (Raise (InvalidVisitorPass ex), w) => get_response request w
        | (Raise e, w) => (Raise e, w)
        | (Ok visitor, w) =>
            let request := set_visitor (Some visitor) request in
            let request := set_user_is_visitor true request in
            get_response request w
        end.

(** [VisitorSessionMiddleware.__call__]: extract visitor info from the
    session and update the request user. *)
Definition VisitorSessionMiddleware (get_response : Handler) : Handler :=
  fun request =>
    if bool_decide (is_Some (visitor request)) then
      request <~ session.stash_visitor_uuid cfg request ;;
      get_response request
    else
      let visitor_uuid := session.get_visitor_uuid cfg request in
      if negb (truthy visitor_uuid) then get_response request
      else
        (* a truthy [visitor_uuid] is a string *)
        fun w =>
          match models.objects_get (default "" visitor_uuid) (Some true) w with
          | (Raise DoesNotExist, w) =>
              let request := session.clear_visitor_uuid cfg request in
              get_response request w
          | (Raise e, w) => (Raise e, w)
          | (Ok visitor, w) =>
              let request := set_visitor (Some visitor) request in
              let request := set_user_is_visitor true request in
              get_response request w
          end.

(** [VisitorCountMiddleware.__call__]: count the usage and deactivate
    the visitor once the maximum number of usages is exceeded. *)
Definition VisitorCountMiddleware (get_response : Handler) : Handler :=
  fun request =>
    match visitor request with
    | None => get_response request
    | Some visitor =>
        let visitor := set_usage_count (usage_count visitor + 1)%Z visitor in
        let request := set_visitor (Some visitor) request in
        models.save visitor ;;;
        if bool_decide (max_usages_allowed visitor < usage_count visitor)%Z then
          let visitor := set_is_active false visitor in
          let request := set_visitor (Some visitor) request in
          models.save visitor ;;;
          let request := set_user_is_visitor false request in
          get_response request
        else get_response request
    end.

(** The chain in the order the docstrings prescribe: request, session,
    count, then the view. *)
Definition pipeline (view : Handler) : Handler :=
  VisitorRequestMiddleware
    (VisitorSessionMiddleware
       (VisitorCountMiddleware view)).

End with_config.
End middleware.
Import middleware.

(** * Vocabulary of the statements *)

(** The token of a request and the identifier stashed in its session. *)
Definition token (cfg : Config) (r : HttpRequest) : option string :=
  GET r !! VISITOR_QUERYSTRING_KEY cfg.

Definition stashed (cfg : Config) (r : HttpRequest) : option string :=
  session r !! VISITOR_SESSION_KEY cfg.

(** The request as the Token Extractor resets it: no visitor, flag false. *)
Definition cleared (r : HttpRequest) : HttpRequest :=
  set_user_is_visitor false (set_visitor None r).

(** The request once a visitor is identified: context set, flag true. *)
Definition identified (v : Visitor) (r : HttpRequest) : HttpRequest :=
  set_user_is_visitor true (set_visitor (Some v) r).

(** The view of the tests, [lambda r: r]: it hands back the request it is
    given, so the outcome of a chain shows what the view would see. *)
Definition echo : HttpRequest -> M HttpRequest := ret.

(** Serving one request at clock time [t]. *)
Definition serve (cfg : Config) (t : Z) (r : HttpRequest) (w : World)
  : result HttpRequest * World :=
  pipeline cfg echo r (set_now t w).

(** Serving requests one after the other, each at its own time, against the
    world the previous one left. *)
Fixpoint serve_all (cfg : Config) (rs : list (Z * HttpRequest)) (w : World)
  : list (result HttpRequest) * World :=
  match rs with
  | [] => ([], w)
  | (t, r) :: rs =>
      let '(o, w) := serve cfg t r w in
      let '(os, w) := serve_all cfg rs w in
      (o :: os, w)
  end.

(** Identifiers are unique: every row is stored under its own identifier. *)
Definition unique_ids (m : gmap string Visitor) : Prop :=
  map_Forall (fun k v => uuid v = k) m.

(** The visitor after the increment, and after the deactivation that
    follows when the limit is exceeded. *)
Definition counted (v : Visitor) : Visitor :=
  set_usage_count (usage_count v + 1)%Z v.

Definition revoked (v : Visitor) : Visitor :=
  set_is_active false (counted v).

(** The session after the Session Synchronizer stashed [v]. *)
Definition stashing (cfg : Config) (v : Visitor) (r : HttpRequest) : HttpRequest :=
  set_session (<[VISITOR_SESSION_KEY cfg := uuid v]> (session r)) r.

(** The Token Extractor identifies [v] on request [r]: the token is the
    identifier of a stored visitor that is valid now. *)
Definition token_identifies (cfg : Config) (r : HttpRequest) (w : World)
           (v : Visitor) : Prop :=
  exists id, token cfg r = Some id /\ id <> "" /\ db w !! id = Some v /\
             models.is_valid cfg (now w) v = true.

(** The only write the Token Extractor may make deactivates a row. *)
Definition at_most_deactivated (w w1 : World) : Prop :=
  w1 = w \/ exists v, w1 = write (set_is_active false v) w.

(** Request [r], arriving at time [t], presents visitor [v]: by its token,
    within the token expiry window, or with no token and the identifier in
    the session. *)
Definition presents (cfg : Config) (v : Visitor) (t : Z) (r : HttpRequest)
  : Prop :=
  (token cfg r = Some (uuid v) /\
   (t - created_at v <= VISITOR_TOKEN_EXPIRY cfg)%Z) \/
  (truthy (token cfg r) = false /\ stashed cfg r = Some (uuid v)).

(** Request [r] names no visitor other than [id], neither by token nor by
    session. *)
Definition names_only (cfg : Config) (id : string) (r : HttpRequest) : Prop :=
  (forall s, token cfg r = Some s -> s = id \/ s = "") /\
  (forall s, stashed cfg r = Some s -> s = id \/ s = "").

(** A request was granted to the visitor [id]: it ended with the flag set
    and that visitor in context. *)
Definition granted (id : string) (o : result HttpRequest) : Prop :=
  exists r x, o = Ok r /\ is_visitor r = true /\ visitor r = Some x /\
              uuid x = id.

(** A deactivated row stays as it is under a write that rewrites an
    identified, active visitor or deactivates a row. *)
Definition keeps_inactive (w w' : World) : Prop :=
  forall k v, db w !! k = Some v -> is_active v = false -> db w' !! k = Some v.

(** ** Each stage as a step on (request, world)

    Every stage changes the request and the world in one of a few ways and
    then calls the rest of the chain exactly once. The step relations list
    the ways; the [_runs] lemmas below say that the code takes one of them,
    for whatever handler comes next. *)

Inductive token_step (cfg : Config)
  : HttpRequest -> World -> HttpRequest -> World -> Prop :=
| token_absent r w :
    truthy (token cfg r) = false ->
    token_step cfg r w (cleared r) w
| token_unknown r w id :
    token cfg r = Some id -> id <> "" ->
    db w !! id = None ->
    token_step cfg r w (cleared r) w
| token_invalid r w id v :
    token cfg r = Some id -> id <> "" ->
    db w !! id = Some v ->
    models.is_valid cfg (now w) v = false ->
    token_step cfg r w (cleared r) (write (set_is_active false v) w)
| token_valid r w id v :
    token cfg r = Some id -> id <> "" ->
    db w !! id = Some v ->
    models.is_valid cfg (now w) v = true ->
    token_step cfg r w (identified v (cleared r)) w.

Inductive session_step (cfg : Config)
  : HttpRequest -> World -> HttpRequest -> Prop :=
| session_fresh r w v :
    visitor r = Some v ->
    session_step cfg r w
      (set_session (<[VISITOR_SESSION_KEY cfg := uuid v]> (session r)) r)
| session_none r w :
    visitor r = None ->
    truthy (stashed cfg r) = false ->
    session_step cfg r w r
| session_dangling r w id :
    visitor r = None ->
    stashed cfg r = Some id -> id <> "" ->
    (forall v, db w !! id = Some v -> is_active v = false) ->
    session_step cfg r w (session.clear_visitor_uuid cfg r)
| session_found r w id v :
    visitor r = None ->
    stashed cfg r = Some id -> id <> "" ->
    db w !! id = Some v -> is_active v = true ->
    session_step cfg r w (identified v r).

Inductive count_step
  : HttpRequest -> World -> HttpRequest -> World -> Prop :=
| count_skip r w :
    visitor r = None ->
    count_step r w r w
| count_ok r w v :
    visitor r = Some v ->
    (usage_count v + 1 <= max_usages_allowed v)%Z ->
    count_step r w (set_visitor (Some (counted v)) r) (write (counted v) w)
| count_trip r w v :
    visitor r = Some v ->
    (max_usages_allowed v < usage_count v + 1)%Z ->
    count_step r w
      (set_user_is_visitor false (set_visitor (Some (revoked v)) r))
      (write (revoked v) (write (counted v) w)).

(** One request through the three stages. *)
Inductive pipeline_step (cfg : Config)
  : HttpRequest -> World -> HttpRequest -> World -> Prop :=
| pipeline_stages r w r1 w1 r2 r3 w3 :
    token_step cfg r w r1 w1 ->
    session_step cfg r1 w1 r2 ->
    count_step r2 w1 r3 w3 ->
    pipeline_step cfg r w r3 w3.

(** ** middleware.py, continued: VisitorDebugMiddleware *)

(** What one [logger.debug(fmt, arg)] hands to the logging sink: the format
    and the argument, not yet rendered. *)
Inductive LogArg :=
| LogBool (b : bool)
| LogVisitor (o : option Visitor).

Record LogRecord := {
  log_format : string;
  log_arg : LogArg
}.

(** The exception of Django that makes it leave a middleware out of the
    chain. *)
Inductive init_exn :=
| MiddlewareNotUsed (msg : string).

(** The two [logger.debug] calls of [VisitorDebugMiddleware.__call__]. *)
Definition debug_records (request : HttpRequest) : list LogRecord :=
  let log :=
    [ {| log_format := "request.user.is_visitor: %s";
         log_arg := LogBool (is_visitor request) |} ] in
  if is_visitor request then
    log ++ [ {| log_format := "request.visitor: %s";
                log_arg := LogVisitor (visitor request) |} ]
  else log.

(** [VisitorDebugMiddleware.__call__]: log, then call the rest of the
    chain. The logging sink is not part of the world: the call gives back
    the records it logged next to what [get_response] returned or raised,
    so that the records of a call that raised are kept. *)
Definition VisitorDebugMiddleware_call {R : Type}
           (get_response : HttpRequest -> M R)
  : HttpRequest -> M (list LogRecord * result R) :=
  fun request w =>
    let log := debug_records request in
    let '(outcome, w) := get_response request w in
    (Ok (log, outcome), w).

(** [VisitorDebugMiddleware.__init__]: the middleware exists only under
    [settings.DEBUG]. *)
Definition VisitorDebugMiddleware {R : Type} (DEBUG : bool)
           (get_response : HttpRequest -> M R)
  : init_exn + (HttpRequest -> M (list LogRecord * result R)) :=
  if negb DEBUG then inl (MiddlewareNotUsed "VisitorDebugMiddleware disabled")
  else inr (VisitorDebugMiddleware_call get_response).

(** ** Vocabulary of the further properties *)

(** A row as it may have become: the identifier, contact, scope, creation
    time and allowance are the same, the usage count has not gone down and
    is_active has not come back. *)
Definition ages (v v' : Visitor) : Prop :=
  uuid v' = uuid v /\ email v' = email v /\ scope v' = scope v /\
  created_at v' = created_at v /\
  max_usages_allowed v' = max_usages_allowed v /\
  (usage_count v <= usage_count v')%Z /\
  (is_active v' = true -> is_active v = true).

(** The table as it may have become: no row appeared, no row went, every
    row aged. *)
Definition table_ages (w w' : World) : Prop :=
  forall k,
    match db w !! k with
    | None => db w' !! k = None
    | Some v => exists v', db w' !! k = Some v' /\ ages v v'
    end.

(** The answer ended with the visitor [id] in context. *)
Definition attributed (id : string) (o : result HttpRequest) : bool :=
  match o with
  | Ok r =>
      match visitor r with
      | Some x => bool_decide (uuid x = id)
      | None => false
      end
  | Raise _ => false
  end.

(** The answer ended with the flag set and the visitor [id] in context. *)
Definition grantedb (id : string) (o : result HttpRequest) : bool :=
  match o with
  | Ok r => is_visitor r && attributed id o
  | Raise _ => false
  end.


(** ** Fixtures of the tests *)

Module fixture.

(** [Visitor.objects.create(email="fred@example.com", scope="foo")]. *)
Definition fred : Visitor :=
  {| uuid := "9e1f1b6c-fred"; email := "fred@example.com"; scope := "foo";
     created_at := 1000; is_active := true; usage_count := 0;
     max_usages_allowed := 10 |}.

(** A second visitor with a link of its own, used three times so far. *)
Definition wilma : Visitor :=
  {| uuid := "51c0a3d2-wilma"; email := "wilma@example.com"; scope := "bar";
     created_at := 1000; is_active := true; usage_count := 3;
     max_usages_allowed := 10 |}.

(** A table holding the given rows, read at a given time. *)
Definition world_at (t : Z) (rows : list Visitor) : World :=
  {| db := list_to_map ((fun v => (uuid v, v)) <$> rows); now := t; saved := [] |}.

(** [RequestFactory().get(url)] with the test's fake session: a request
    with an optional [vuid] and an optional stashed identifier. *)
Definition request (vuid stash : option string) : HttpRequest :=
  {| GET := from_option (fun s => {["vuid" := s]}) ∅ vuid;
     session := from_option (fun s => {["visitor:session" := s]}) ∅ stash;
     visitor := None; is_visitor := false |}.

End fixture.

(** * Verification *)

(** ** The tests of tests/test_middleware.py, replayed on the model *)

Module tests.
Import fixture.

(** What a test asserts about a request after the middleware ran: the
    flag, the identifier of the visitor in context, the stashed
    identifier. *)
Definition observed (o : result HttpRequest * World)
  : option (bool * option string * option string) :=
  match o with
  | (Ok r, _) => Some (is_visitor r, uuid <$> visitor r, stashed defaults r)
  | (Raise _, _) => None
  end.

(** The row of an identifier after the middleware ran
    ([visitor.refresh_from_db()]). *)
Definition refreshed (id : string) (o : result HttpRequest * World)
  : option Visitor :=
  db (snd o) !! id.

Example test_no_token :
  observed (VisitorRequestMiddleware defaults echo (request None None)
              (world_at 1000 []))
  = Some (false, None, None).
Proof. reflexivity. Qed.

Example test_token_does_not_exist :
  observed (VisitorRequestMiddleware defaults echo
              (request (Some "0c5e5a4e-unknown") None) (world_at 1000 [fred]))
  = Some (false, None, None).
Proof. reflexivity. Qed.

Example test_token_is_invalid :
  observed (VisitorRequestMiddleware defaults echo
              (request (Some (uuid fred)) None)
              (snd (models.deactivate fred (world_at 1000 [fred]))))
  = Some (false, None, None).
Proof. reflexivity. Qed.

Example test_valid_token :
  observed (VisitorRequestMiddleware defaults echo
              (request (Some (uuid fred)) None) (world_at 1000 [fred]))
  = Some (true, Some (uuid fred), None).
Proof. reflexivity. Qed.

Example test_visitor :
  observed (VisitorSessionMiddleware defaults echo
              (identified fred (request None None)) (world_at 1000 [fred]))
  = Some (true, Some (uuid fred), Some (uuid fred)).
Proof. reflexivity. Qed.

Example test_no_visitor_no_session :
  observed (VisitorSessionMiddleware defaults echo (request None None)
              (world_at 1000 [fred]))
  = Some (false, None, None).
Proof. reflexivity. Qed.

Example test_visitor_in_session :
  observed (VisitorSessionMiddleware defaults echo
              (request None (Some (uuid fred))) (world_at 1000 [fred]))
  = Some (true, Some (uuid fred), Some (uuid fred)).
Proof. reflexivity. Qed.

Example test_visitor_does_not_exist :
  observed (VisitorSessionMiddleware defaults echo
              (request None (Some "0c5e5a4e-unknown")) (world_at 1000 [fred]))
  = Some (false, None, None).
Proof. reflexivity. Qed.

Example test_usage_increment :
  usage_count <$>
    refreshed (uuid fred)
      (VisitorCountMiddleware echo (identified fred (request None None))
         (world_at 1000 [fred]))
  = Some (usage_count fred + 1)%Z.
Proof. reflexivity. Qed.

Example test_non_visitor :
  VisitorCountMiddleware echo (request None None) (world_at 1000 [fred])
  = (Ok (request None None), world_at 1000 [fred]).
Proof. reflexivity. Qed.

Example test_rejection_at_usage_limit :
  let reached :=
    set_usage_count (DEFAULT_MAX_LINK_USAGES_ALLOWED defaults) fred in
  let o := VisitorCountMiddleware echo (identified reached (request None None))
             (world_at 1000 [reached]) in
  is_active <$> refreshed (uuid reached) o = Some false /\
  observed o = Some (false, Some (uuid reached), None).
Proof. split; reflexivity. Qed.

End tests.

(** ** The stages, branch by branch *)

Section stages.

Context (cfg : Config) {R : Type} (get_response : HttpRequest -> M R).

Lemma truthy_Some (o : option string) :
  truthy o = true -> exists s, o = Some s /\ s <> "".
Proof.
  destruct o as [s|]; simpl; [|discriminate].
  intros H. exists s. split; [reflexivity|].
  apply negb_true_iff, bool_decide_eq_false in H. exact H.
Qed.

Lemma truthy_of (s : string) : s <> "" -> truthy (Some s) = true.
Proof.
  intros H. simpl. apply negb_true_iff, bool_decide_eq_false. exact H.
Qed.

(** *** Token Extractor *)

Lemma request_no_token (r : HttpRequest) (w : World) :
  truthy (token cfg r) = false ->
  VisitorRequestMiddleware cfg get_response r w = get_response (cleared r) w.
Proof.
  intros H. unfold VisitorRequestMiddleware. cbn [GET set_visitor set_user_is_visitor].
  fold (token cfg r). rewrite H. reflexivity.
Qed.

Lemma request_unknown_token (r : HttpRequest) (w : World) (id : string) :
  token cfg r = Some id ->
  db w !! id = None ->
  VisitorRequestMiddleware cfg get_response r w = get_response (cleared r) w.
Proof.
  intros Ht Hdb. unfold VisitorRequestMiddleware.
  cbn [GET set_visitor set_user_is_visitor]. fold (token cfg r). rewrite Ht.
  destruct (truthy (Some id)); [|reflexivity]. cbn [negb from_option Datatypes.id].
  unfold lookup_and_validate, bind, models.objects_get. rewrite Hdb.
  reflexivity.
Qed.

Lemma request_invalid_token (r : HttpRequest) (w : World) (id : string)
      (v : Visitor) :
  token cfg r = Some id -> id <> "" ->
  db w !! id = Some v ->
  models.is_valid cfg (now w) v = false ->
  VisitorRequestMiddleware cfg get_response r w
  = get_response (cleared r) (write (set_is_active false v) w).
Proof.
  intros Ht Hid Hdb Hv. unfold VisitorRequestMiddleware.
  cbn [GET set_visitor set_user_is_visitor]. fold (token cfg r). rewrite Ht.
  rewrite (truthy_of id Hid). cbn [negb from_option Datatypes.id].
  unfold lookup_and_validate, bind, models.objects_get. rewrite Hdb.
  unfold models.validate. rewrite Hv.
  reflexivity.
Qed.

Lemma request_valid_token (r : HttpRequest) (w : World) (id : string)
      (v : Visitor) :
  token cfg r = Some id -> id <> "" ->
  db w !! id = Some v ->
  models.is_valid cfg (now w) v = true ->
  VisitorRequestMiddleware cfg get_response r w
  = get_response (identified v (cleared r)) w.
Proof.
  intros Ht Hid Hdb Hv. unfold VisitorRequestMiddleware.
  cbn [GET set_visitor set_user_is_visitor]. fold (token cfg r). rewrite Ht.
  rewrite (truthy_of id Hid). cbn [negb from_option Datatypes.id].
  unfold lookup_and_validate, bind, models.objects_get. rewrite Hdb.
  unfold models.validate. rewrite Hv.
  reflexivity.
Qed.

(** *** Session Synchronizer *)

Lemma session_stash (r : HttpRequest) (w : World) (v : Visitor) :
  visitor r = Some v ->
  VisitorSessionMiddleware cfg get_response r w
  = get_response
      (set_session (<[VISITOR_SESSION_KEY cfg := uuid v]> (session r)) r) w.
Proof.
  intros Hv. unfold VisitorSessionMiddleware. rewrite Hv.
  rewrite bool_decide_eq_true_2 by eauto.
  unfold bind, session.stash_visitor_uuid. rewrite Hv. reflexivity.
Qed.

Lemma session_empty (r : HttpRequest) (w : World) :
  visitor r = None ->
  truthy (stashed cfg r) = false ->
  VisitorSessionMiddleware cfg get_response r w = get_response r w.
Proof.
  intros Hv Hs. unfold VisitorSessionMiddleware. rewrite Hv.
  rewrite bool_decide_eq_false_2 by (intros [? ?]; discriminate).
  unfold session.get_visitor_uuid. fold (stashed cfg r). rewrite Hs.
  reflexivity.
Qed.

Lemma session_stale (r : HttpRequest) (w : World) (id : string) :
  visitor r = None ->
  stashed cfg r = Some id -> id <> "" ->
  (forall v, db w !! id = Some v -> is_active v = false) ->
  VisitorSessionMiddleware cfg get_response r w
  = get_response (session.clear_visitor_uuid cfg r) w.
Proof.
  intros Hv Hs Hid Hdb. unfold VisitorSessionMiddleware. rewrite Hv.
  rewrite bool_decide_eq_false_2 by (intros [? ?]; discriminate).
  unfold session.get_visitor_uuid. fold (stashed cfg r). rewrite Hs.
  rewrite (truthy_of id Hid). cbn [negb from_option Datatypes.id].
  unfold models.objects_get.
  destruct (db w !! id) as [v|] eqn:E; [|reflexivity].
  rewrite (Hdb v eq_refl). reflexivity.
Qed.

Lemma session_rehydrate (r : HttpRequest) (w : World) (id : string)
      (v : Visitor) :
  visitor r = None ->
  stashed cfg r = Some id -> id <> "" ->
  db w !! id = Some v -> is_active v = true ->
  VisitorSessionMiddleware cfg get_response r w
  = get_response (identified v r) w.
Proof.
  intros Hv Hs Hid Hdb Ha. unfold VisitorSessionMiddleware. rewrite Hv.
  rewrite bool_decide_eq_false_2 by (intros [? ?]; discriminate).
  unfold session.get_visitor_uuid. fold (stashed cfg r). rewrite Hs.
  rewrite (truthy_of id Hid). cbn [negb from_option Datatypes.id].
  unfold models.objects_get. rewrite Hdb, Ha. reflexivity.
Qed.

(** *** Usage Limiter *)

Lemma count_no_visitor (r : HttpRequest) (w : World) :
  visitor r = None ->
  VisitorCountMiddleware get_response r w = get_response r w.
Proof. intros Hv. unfold VisitorCountMiddleware. rewrite Hv. reflexivity. Qed.

Lemma count_within_limit (r : HttpRequest) (w : World) (v : Visitor) :
  visitor r = Some v ->
  (usage_count v + 1 <= max_usages_allowed v)%Z ->
  VisitorCountMiddleware get_response r w
  = get_response (set_visitor (Some (counted v)) r) (write (counted v) w).
Proof.
  intros Hv Hle. unfold VisitorCountMiddleware. rewrite Hv.
  unfold bind, models.save. cbn [usage_count max_usages_allowed set_usage_count].
  rewrite bool_decide_eq_false_2 by lia. reflexivity.
Qed.

Lemma count_limit_exceeded (r : HttpRequest) (w : World) (v : Visitor) :
  visitor r = Some v ->
  (max_usages_allowed v < usage_count v + 1)%Z ->
  VisitorCountMiddleware get_response r w
  = get_response
      (set_user_is_visitor false (set_visitor (Some (revoked v)) r))
      (write (revoked v) (write (counted v) w)).
Proof.
  intros Hv Hlt. unfold VisitorCountMiddleware. rewrite Hv.
  unfold bind, models.save. cbn [usage_count max_usages_allowed set_usage_count].
  rewrite bool_decide_eq_true_2 by lia. reflexivity.
Qed.

End stages.

(** ** The code takes the steps *)

Lemma VisitorRequestMiddleware_runs (cfg : Config) (r : HttpRequest) (w : World) :
  exists r' w',
    token_step cfg r w r' w' /\
    forall (R : Type) (get_response : HttpRequest -> M R),
      VisitorRequestMiddleware cfg get_response r w = get_response r' w'.
Proof.
  destruct (truthy (token cfg r)) eqn:Ht.
  - apply truthy_Some in Ht as (id & Ht & Hid).
    destruct (db w !! id) as [v|] eqn:Hdb.
    + destruct (models.is_valid cfg (now w) v) eqn:Hv.
      * exists (identified v (cleared r)), w. split.
        -- eapply token_valid; eassumption.
        -- intros. eapply request_valid_token; eassumption.
      * exists (cleared r), (write (set_is_active false v) w). split.
        -- eapply token_invalid; eassumption.
        -- intros. eapply request_invalid_token; eassumption.
    + exists (cleared r), w. split.
      * eapply token_unknown; eassumption.
      * intros. eapply request_unknown_token; eassumption.
  - exists (cleared r), w. split.
    + apply token_absent, Ht.
    + intros. apply request_no_token, Ht.
Qed.

Lemma VisitorSessionMiddleware_runs (cfg : Config) (r : HttpRequest) (w : World) :
  exists r',
    session_step cfg r w r' /\
    forall (R : Type) (get_response : HttpRequest -> M R),
      VisitorSessionMiddleware cfg get_response r w = get_response r' w.
Proof.
  destruct (visitor r) as [v|] eqn:Hv.
  { eexists. split; [apply session_fresh, Hv|].
    intros. apply session_stash, Hv. }
  destruct (truthy (stashed cfg r)) eqn:Hs.
  - apply truthy_Some in Hs as (id & Hs & Hid).
    destruct (db w !! id) as [v|] eqn:Hdb.
    + destruct (is_active v) eqn:Ha.
      * exists (identified v r). split.
        -- eapply session_found; eassumption.
        -- intros. eapply session_rehydrate; eassumption.
      * exists (session.clear_visitor_uuid cfg r). split.
        -- eapply session_dangling; try eassumption. congruence.
        -- intros. eapply session_stale; try eassumption. congruence.
    + exists (session.clear_visitor_uuid cfg r). split.
      * eapply session_dangling; try eassumption. congruence.
      * intros. eapply session_stale; try eassumption. congruence.
  - exists r. split.
    + apply session_none; assumption.
    + intros. apply session_empty; assumption.
Qed.

Lemma VisitorCountMiddleware_runs (r : HttpRequest) (w : World) :
  exists r' w',
    count_step r w r' w' /\
    forall (R : Type) (get_response : HttpRequest -> M R),
      VisitorCountMiddleware get_response r w = get_response r' w'.
Proof.
  destruct (visitor r) as [v|] eqn:Hv.
  - destruct (decide (usage_count v + 1 <= max_usages_allowed v)%Z) as [Hle|Hgt].
    + do 2 eexists. split; [eapply count_ok; eassumption|].
      intros. apply count_within_limit; assumption.
    + do 2 eexists. split; [eapply count_trip; [eassumption|lia]|].
      intros. apply count_limit_exceeded; [assumption|lia].
  - exists r, w. split; [apply count_skip, Hv|].
    intros. apply count_no_visitor, Hv.
Qed.

Lemma pipeline_runs (cfg : Config) (r : HttpRequest) (w : World) :
  exists r' w',
    pipeline_step cfg r w r' w' /\
    forall (R : Type) (view : HttpRequest -> M R),
      pipeline cfg view r w = view r' w'.
Proof.
  destruct (VisitorRequestMiddleware_runs cfg r w) as (r1 & w1 & H1 & E1).
  destruct (VisitorSessionMiddleware_runs cfg r1 w1) as (r2 & H2 & E2).
  destruct (VisitorCountMiddleware_runs r2 w1) as (r3 & w3 & H3 & E3).
  exists r3, w3. split.
  - econstructor; eassumption.
  - intros. unfold pipeline. rewrite E1, E2, E3. reflexivity.
Qed.

(** The step relation is what the code does and nothing else: the outcome
    of a run is determined. *)
Lemma pipeline_step_echo (cfg : Config) (r : HttpRequest) (w : World)
      (r' : HttpRequest) (w' : World) :
  pipeline cfg echo r w = (Ok r', w') -> pipeline_step cfg r w r' w'.
Proof.
  destruct (pipeline_runs cfg r w) as (r3 & w3 & H & E).
  rewrite E. unfold echo, ret. intros [= <- <-]. exact H.
Qed.

(** ** Rows and writes *)

Lemma set_is_active_id (v : Visitor) (b : bool) :
  is_active v = b -> set_is_active b v = v.
Proof. destruct v; simpl; intros <-; reflexivity. Qed.

Lemma db_write_same (v : Visitor) (w : World) :
  db (write v w) !! uuid v = Some v.
Proof. unfold write; simpl. apply lookup_insert_eq. Qed.

Lemma db_write_other (v : Visitor) (w : World) (k : string) :
  uuid v <> k -> db (write v w) !! k = db w !! k.
Proof. intros H. unfold write; simpl. apply lookup_insert_ne, H. Qed.

Lemma unique_ids_write (v : Visitor) (w : World) :
  unique_ids (db w) -> unique_ids (db (write v w)).
Proof.
  intros H. unfold write; simpl. apply map_Forall_insert_2; [reflexivity|exact H].
Qed.

Lemma is_valid_active (cfg : Config) (t : Z) (v : Visitor) :
  models.is_valid cfg t v = true -> is_active v = true.
Proof. unfold models.is_valid. intros H. apply andb_true_iff in H as [H _]. exact H. Qed.

Lemma is_valid_inactive (cfg : Config) (t : Z) (v : Visitor) :
  is_active v = false -> models.is_valid cfg t v = false.
Proof. unfold models.is_valid. intros ->. reflexivity. Qed.

Lemma is_valid_iff (cfg : Config) (t : Z) (v : Visitor) :
  models.is_valid cfg t v = true <->
  is_active v = true /\ (t - created_at v <= VISITOR_TOKEN_EXPIRY cfg)%Z.
Proof.
  unfold models.is_valid. rewrite andb_true_iff, bool_decide_eq_true. reflexivity.
Qed.

(** ** What a request can do to the table *)

Lemma keeps_inactive_refl (w : World) : keeps_inactive w w.
Proof. intros k v H _. exact H. Qed.

Lemma keeps_inactive_trans (w1 w2 w3 : World) :
  keeps_inactive w1 w2 -> keeps_inactive w2 w3 -> keeps_inactive w1 w3.
Proof. intros H12 H23 k v H Ha. apply H23; [apply H12|]; assumption. Qed.

Lemma token_step_table (cfg : Config) r w r' w' :
  token_step cfg r w r' w' ->
  unique_ids (db w) ->
  unique_ids (db w') /\ keeps_inactive w w' /\
  (forall x, visitor r' = Some x ->
     db w' !! uuid x = Some x /\ is_active x = true).
Proof.
  intros H U. destruct H as [r w Ht|r w id Ht Hid Hdb|r w id v Ht Hid Hdb Hv
                            |r w id v Ht Hid Hdb Hv].
  - split; [exact U|]. split; [apply keeps_inactive_refl|]. intros x [=].
  - split; [exact U|]. split; [apply keeps_inactive_refl|]. intros x [=].
  - split; [apply unique_ids_write, U|]. split; [|intros x [=]].
    intros k x Hk Ha. pose proof (U _ _ Hdb) as Eid. simpl in Eid.
    destruct (decide (id = k)) as [->|Hne].
    + assert (x = v) as -> by congruence.
      rewrite (set_is_active_id v false Ha).
      rewrite <- Eid. apply db_write_same.
    + rewrite db_write_other; [exact Hk|]. simpl. congruence.
  - split; [exact U|]. split; [apply keeps_inactive_refl|].
    intros x [= <-]. pose proof (U _ _ Hdb) as Eid. simpl in Eid.
    rewrite Eid. split; [exact Hdb|]. eapply is_valid_active, Hv.
Qed.

Lemma session_step_table (cfg : Config) r w r' :
  session_step cfg r w r' ->
  unique_ids (db w) ->
  (forall x, visitor r = Some x -> db w !! uuid x = Some x /\ is_active x = true) ->
  (forall x, visitor r' = Some x -> db w !! uuid x = Some x /\ is_active x = true).
Proof.
  intros H U Hr. destruct H as [r w v Hv|r w Hv Hs|r w id Hv Hs Hid Hdb
                               |r w id v Hv Hs Hid Hdb Ha]; simpl.
  - exact Hr.
  - exact Hr.
  - exact Hr.
  - intros x [= <-]. pose proof (U _ _ Hdb) as Eid. simpl in Eid.
    rewrite Eid. split; assumption.
Qed.

Lemma count_step_table r w r' w' :
  count_step r w r' w' ->
  unique_ids (db w) ->
  (forall x, visitor r = Some x -> db w !! uuid x = Some x /\ is_active x = true) ->
  unique_ids (db w') /\ keeps_inactive w w' /\
  (forall x, visitor r' = Some x ->
     exists x0, db w !! uuid x = Some x0 /\ is_active x0 = true).
Proof.
  intros H U Hr. destruct H as [r w Hv|r w v Hv Hle|r w v Hv Hlt].
  - split; [exact U|]. split; [apply keeps_inactive_refl|].
    intros x Hx. rewrite Hx in Hv. discriminate.
  - destruct (Hr v Hv) as [Hdb Ha].
    split; [apply unique_ids_write, U|]. split.
    + intros k x Hk Hx. rewrite db_write_other; [exact Hk|].
      simpl. intros <-. congruence.
    + simpl. intros x [= <-]. exists v. split; assumption.
  - destruct (Hr v Hv) as [Hdb Ha].
    split; [do 2 apply unique_ids_write; exact U|]. split.
    + intros k x Hk Hx. rewrite !db_write_other; [exact Hk| |];
        simpl; intros <-; congruence.
    + simpl. intros x [= <-]. exists v. split; assumption.
Qed.

(** A request leaves identifiers unique, leaves deactivated rows alone, and
    ends with a visitor in context only if that visitor's row was active
    when the request came in. *)
Lemma pipeline_step_table (cfg : Config) r w r' w' :
  pipeline_step cfg r w r' w' ->
  unique_ids (db w) ->
  unique_ids (db w') /\ keeps_inactive w w' /\
  (forall x, visitor r' = Some x ->
     exists x0, db w !! uuid x = Some x0 /\ is_active x0 = true).
Proof.
  intros [r0 w0 r1 w1 r2 r3 w3 H1 H2 H3] U.
  destruct (token_step_table _ _ _ _ _ H1 U) as (U1 & K1 & V1).
  pose proof (session_step_table _ _ _ _ H2 U1 V1) as V2.
  destruct (count_step_table _ _ _ _ H3 U1 V2) as (U3 & K3 & V3).
  split; [exact U3|]. split; [eapply keeps_inactive_trans; eassumption|].
  intros x Hx. destruct (V3 x Hx) as (x0 & Hdb & Ha).
  exists x0. split; [|exact Ha].
  (* the row was already there, active, before the token stage *)
  destruct (db w0 !! uuid x) as [y|] eqn:E.
  - destruct (is_active y) eqn:Ey.
    + inversion H1; subst; try congruence.
      (* the only write of the token stage deactivates *)
      match goal with
      | Hw : db (write (set_is_active false ?v) _) !! _ = Some _ |- _ =>
          destruct (decide (uuid (set_is_active false v) = uuid x)) as [Eq|Ne];
          [rewrite <- Eq, db_write_same in Hw; injection Hw as <-; discriminate
          |rewrite db_write_other in Hw by exact Ne; congruence]
      end.
    + pose proof (K1 _ _ E Ey). congruence.
  - inversion H1; subst; try congruence.
    match goal with
    | Hw : db (write (set_is_active false ?v) _) !! _ = Some _ |- _ =>
        destruct (decide (uuid (set_is_active false v) = uuid x)) as [Eq|Ne];
        [rewrite <- Eq, db_write_same in Hw; injection Hw as <-; discriminate
        |rewrite db_write_other in Hw by exact Ne; congruence]
    end.
Qed.

(** ** Paths through the whole chain *)

Section paths.

Context (cfg : Config) {R : Type} (view : HttpRequest -> M R).

(** A valid token: identified by the first stage, stashed by the second,
    counted by the third. *)
Lemma pipeline_valid_token (r : HttpRequest) (w : World) (v : Visitor) :
  token cfg r = Some (uuid v) -> uuid v <> "" ->
  db w !! uuid v = Some v ->
  models.is_valid cfg (now w) v = true ->
  pipeline cfg view r w
  = VisitorCountMiddleware view (stashing cfg v (identified v (cleared r))) w.
Proof.
  intros Ht Hid Hdb Hv. unfold pipeline.
  rewrite (request_valid_token cfg _ r w (uuid v) v Ht Hid Hdb Hv).
  rewrite (session_stash cfg _ _ w v); reflexivity.
Qed.

(** No token, and a session that names an active visitor. *)
Lemma pipeline_from_session (r : HttpRequest) (w : World) (v : Visitor) :
  truthy (token cfg r) = false ->
  stashed cfg r = Some (uuid v) -> uuid v <> "" ->
  db w !! uuid v = Some v -> is_active v = true ->
  pipeline cfg view r w
  = VisitorCountMiddleware view (identified v (cleared r)) w.
Proof.
  intros Ht Hs Hid Hdb Ha. unfold pipeline.
  rewrite (request_no_token cfg _ r w Ht).
  rewrite (session_rehydrate cfg _ _ w (uuid v) v); auto.
Qed.

End paths.

(** After a first stage that identified nobody, a session that names no
    active visitor leaves the request a non-visitor and the world as it
    is. *)
Lemma pipeline_rest_no_visitor (cfg : Config) (r : HttpRequest) (w : World) :
  visitor r = None ->
  (forall s x, stashed cfg r = Some s -> s <> "" -> db w !! s = Some x ->
               is_active x = false) ->
  exists r',
    (forall (R : Type) (view : HttpRequest -> M R),
        VisitorSessionMiddleware cfg (VisitorCountMiddleware view) r w
        = view r' w) /\
    visitor r' = None /\ is_visitor r' = is_visitor r /\ GET r' = GET r /\
    truthy (stashed cfg r') = false.
Proof.
  intros Hv Hs. destruct (truthy (stashed cfg r)) eqn:Ht.
  - apply truthy_Some in Ht as (id & Ht & Hid).
    exists (session.clear_visitor_uuid cfg r). split.
    + intros R view.
      rewrite (session_stale cfg _ r w id Hv Ht Hid); [|eauto].
      apply count_no_visitor. exact Hv.
    + repeat split; try assumption.
      unfold stashed, session.clear_visitor_uuid; simpl.
      rewrite lookup_delete_eq. reflexivity.
  - exists r. split.
    + intros R view.
      rewrite (session_empty cfg _ r w Hv Ht). apply count_no_visitor, Hv.
    + repeat split; assumption.
Qed.

(** ** Requests the token does not identify, requests of one visitor *)

(** When the token identifies nobody, the Token Extractor hands on the
    cleared request, and the table is as it was up to one deactivation. *)
Lemma request_not_identified (cfg : Config) (r : HttpRequest) (w : World) :
  (forall v, ~ token_identifies cfg r w v) ->
  exists w1,
    (forall (R : Type) (get_response : HttpRequest -> M R),
        VisitorRequestMiddleware cfg get_response r w
        = get_response (cleared r) w1) /\
    at_most_deactivated w w1.
Proof.
  intros Hn.
  destruct (VisitorRequestMiddleware_runs cfg r w) as (r1 & w1 & H & E).
  destruct H as [r w Ht|r w id Ht Hid Hdb|r w id v Ht Hid Hdb Hv
                |r w id v Ht Hid Hdb Hv].
  - exists w. split; [exact E|left; reflexivity].
  - exists w. split; [exact E|left; reflexivity].
  - exists (write (set_is_active false v) w). split; [exact E|right].
    exists v. reflexivity.
  - exfalso. apply (Hn v). exists id. repeat split; assumption.
Qed.

(** An identifier without an active row has none after the Token
    Extractor either. *)
Lemma inactive_after_deactivation (w w1 : World) (id : string) :
  at_most_deactivated w w1 ->
  (forall x, db w !! id = Some x -> is_active x = false) ->
  forall x, db w1 !! id = Some x -> is_active x = false.
Proof.
  intros [->|(v & ->)] H x Hx; [eauto|].
  destruct (decide (uuid (set_is_active false v) = id)) as [<-|Hne].
  - rewrite db_write_same in Hx. injection Hx as <-. reflexivity.
  - rewrite db_write_other in Hx by exact Hne. eauto.
Qed.

(** A token of an existing, invalid visitor through the whole chain, when
    the session names no other active visitor. *)
Lemma pipeline_invalid_token (cfg : Config) (r : HttpRequest) (w : World)
      (v : Visitor) :
  token cfg r = Some (uuid v) -> uuid v <> "" ->
  db w !! uuid v = Some v ->
  models.is_valid cfg (now w) v = false ->
  (forall s x, stashed cfg r = Some s -> db w !! s = Some x ->
               is_active x = true -> s = uuid v) ->
  exists r',
    (forall (R : Type) (view : HttpRequest -> M R),
        pipeline cfg view r w = view r' (write (set_is_active false v) w)) /\
    visitor r' = None /\ is_visitor r' = false.
Proof.
  intros Ht Hid Hdb Hv Hs.
  destruct (pipeline_rest_no_visitor cfg (cleared r)
              (write (set_is_active false v) w) eq_refl)
    as (r' & P & Hv' & Hf & _).
  { intros s x Hs' _ Hx.
    destruct (decide (uuid (set_is_active false v) = s)) as [<-|Hne].
    - rewrite db_write_same in Hx. injection Hx as <-. reflexivity.
    - rewrite db_write_other in Hx by exact Hne.
      destruct (is_active x) eqn:Ha; [|reflexivity].
      exfalso. apply Hne. symmetry. exact (Hs s x Hs' Hx Ha). }
  exists r'. split; [|split; assumption].
  intros R view. unfold pipeline.
  rewrite (request_invalid_token cfg _ r w (uuid v) v Ht Hid Hdb Hv).
  apply P.
Qed.

Lemma set_usage_count_id (v : Visitor) (n : Z) :
  usage_count v = n -> set_usage_count n v = v.
Proof. destruct v; simpl; intros <-; reflexivity. Qed.

Section one_visitor.

Context (cfg : Config) (v : Visitor) (t : Z) (r : HttpRequest) (w : World).
Context (Hid : uuid v <> "") (Hdb : db w !! uuid v = Some v).

(** Whichever way an active visitor is presented, the Usage Limiter
    receives it in context with the flag set and the identifier in the
    session. *)
Lemma presented_reaches_limiter :
  is_active v = true ->
  presents cfg v t r ->
  exists r2,
    (forall (R : Type) (view : HttpRequest -> M R),
        pipeline cfg view r (set_now t w)
        = VisitorCountMiddleware view r2 (set_now t w)) /\
    visitor r2 = Some v /\ is_visitor r2 = true /\
    stashed cfg r2 = Some (uuid v).
Proof using Hid Hdb.
  intros Ha [[Ht Hexp]|[Ht Hs]].
  - exists (stashing cfg v (identified v (cleared r))). split.
    + intros R view. apply pipeline_valid_token; try assumption.
      apply is_valid_iff. split; assumption.
    + repeat split. unfold stashed, stashing; simpl. apply lookup_insert_eq.
  - exists (identified v (cleared r)). split.
    + intros R view. apply pipeline_from_session; assumption.
    + repeat split. exact Hs.
Qed.

Lemma serve_presenting_ok :
  is_active v = true ->
  presents cfg v t r ->
  (usage_count v + 1 <= max_usages_allowed v)%Z ->
  exists out,
    serve cfg t r w = (Ok out, write (counted v) (set_now t w)) /\
    is_visitor out = true /\ visitor out = Some (counted v) /\
    stashed cfg out = Some (uuid v).
Proof using Hid Hdb.
  intros Ha Hp Hle.
  destruct (presented_reaches_limiter Ha Hp) as (r2 & E & Hv & Hf & Hs).
  exists (set_visitor (Some (counted v)) r2). split.
  - unfold serve. rewrite E.
    apply (count_within_limit echo r2 (set_now t w) v Hv Hle).
  - repeat split; assumption.
Qed.

Lemma serve_presenting_trip :
  is_active v = true ->
  presents cfg v t r ->
  (max_usages_allowed v < usage_count v + 1)%Z ->
  exists out,
    serve cfg t r w
    = (Ok out, write (revoked v) (write (counted v) (set_now t w))) /\
    is_visitor out = false /\ visitor out = Some (revoked v).
Proof using Hid Hdb.
  intros Ha Hp Hlt.
  destruct (presented_reaches_limiter Ha Hp) as (r2 & E & Hv & Hf & Hs).
  exists (set_user_is_visitor false (set_visitor (Some (revoked v)) r2)). split.
  - unfold serve. rewrite E.
    apply (count_limit_exceeded echo r2 (set_now t w) v Hv Hlt).
  - split; reflexivity.
Qed.

(** A deactivated visitor is denied, and its row is left as it is. *)
Lemma serve_inactive :
  is_active v = false ->
  names_only cfg (uuid v) r ->
  exists out w',
    serve cfg t r w = (Ok out, w') /\
    is_visitor out = false /\ visitor out = None /\
    db w' !! uuid v = Some v.
Proof using Hdb.
  intros Ha [Nt Ns].
  assert (exists w1,
             (forall (R : Type) (k : HttpRequest -> M R),
                 VisitorRequestMiddleware cfg k r (set_now t w)
                 = k (cleared r) w1) /\
             db w1 !! uuid v = Some v) as (w1 & E & Hdb1).
  { destruct (VisitorRequestMiddleware_runs cfg r (set_now t w))
      as (r1 & w1 & H & E).
    inversion H as [r0 w0 Ht|r0 w0 id Ht Hne Hnone|r0 w0 id x Ht Hne Hx Hv
                   |r0 w0 id x Ht Hne Hx Hv]; subst.
    - exists (set_now t w). split; [exact E|exact Hdb].
    - exists (set_now t w). split; [exact E|exact Hdb].
    - destruct (Nt id Ht) as [-> | ->]; [|contradiction].
      simpl in Hx. rewrite Hdb in Hx. injection Hx as <-.
      rewrite (set_is_active_id v false Ha) in *.
      eexists. split; [exact E|]. apply db_write_same.
    - destruct (Nt id Ht) as [-> | ->]; [|contradiction].
      simpl in Hx. rewrite Hdb in Hx. injection Hx as <-.
      apply is_valid_active in Hv. congruence. }
  destruct (pipeline_rest_no_visitor cfg (cleared r) w1 eq_refl)
    as (out & P & Hv & Hf & _).
  { intros s x Hs Hne Hx. destruct (Ns s Hs) as [-> | ->]; [|contradiction].
    congruence. }
  exists out, w1. split; [|split; [exact Hf|split; [exact Hv|exact Hdb1]]].
  unfold serve, pipeline. rewrite E. apply P.
Qed.

End one_visitor.

(** As long as the allowance lasts, every request that presents the visitor
    is granted and counted once. *)
Lemma serve_all_presenting (cfg : Config) (rs : list (Z * HttpRequest)) :
  forall (v : Visitor) (w : World),
    uuid v <> "" -> db w !! uuid v = Some v -> is_active v = true ->
    Forall (fun tr => presents cfg v tr.1 tr.2) rs ->
    (usage_count v + Z.of_nat (length rs) <= max_usages_allowed v)%Z ->
    exists outs w',
      serve_all cfg rs w = (outs, w') /\
      length outs = length rs /\
      (forall (i : nat) o, outs !! i = Some o ->
         exists r, o = Ok r /\ is_visitor r = true /\
                   visitor r
                   = Some (set_usage_count (usage_count v + Z.of_nat i + 1) v) /\
                   stashed cfg r = Some (uuid v)) /\
      db w' !! uuid v
      = Some (set_usage_count (usage_count v + Z.of_nat (length rs)) v).
Proof.
  induction rs as [|[t r] rs IH]; intros v w Hid Hdb Ha Hall Hle.
  - exists [], w. simpl. split; [reflexivity|]. split; [reflexivity|].
    split; [intros i o [=]|].
    rewrite Z.add_0_r, (set_usage_count_id v _ eq_refl). exact Hdb.
  - apply Forall_cons in Hall as [Hp Hall]. simpl in Hp.
    cbn [length] in Hle. rewrite Nat2Z.inj_succ in Hle.
    destruct (serve_presenting_ok cfg v t r w Hid Hdb Ha Hp)
      as (out & E & Hf & Hv & Hs); [lia|].
    destruct (IH (counted v) (write (counted v) (set_now t w)))
      as (outs & w' & Es & Hlen & Houts & Hdb');
      [exact Hid|apply (db_write_same (counted v))|exact Ha|exact Hall
      |simpl; lia|].
    exists (Ok out :: outs), w'. cbn [serve_all]. rewrite E, Es.
    split; [reflexivity|]. split; [simpl; congruence|]. split.
    + intros [|i] o Ho; simpl in Ho.
      * injection Ho as <-. exists out. split; [reflexivity|].
        split; [exact Hf|]. split; [|exact Hs].
        rewrite Hv. unfold counted. do 2 f_equal. lia.
      * destruct (Houts i o Ho) as (q & -> & Hqf & Hqv & Hqs).
        exists q. split; [reflexivity|]. split; [exact Hqf|].
        split; [|exact Hqs]. rewrite Hqv. unfold counted, set_usage_count; simpl.
        do 2 f_equal. lia.
    + simpl in Hdb'. rewrite Hdb'. unfold counted, set_usage_count; simpl.
      do 2 f_equal. lia.
Qed.

(** Serving a request never raises and takes one step of the chain. *)
Lemma serve_step (cfg : Config) (t : Z) (r : HttpRequest) (w : World) :
  exists r' w',
    serve cfg t r w = (Ok r', w') /\
    pipeline_step cfg r (set_now t w) r' w'.
Proof.
  destruct (pipeline_runs cfg r (set_now t w)) as (r' & w' & H & E).
  exists r', w'. split; [apply E|exact H].
Qed.

(** * Properties of the specification *)

(** C1. The usage-limit scenario. A visitor is created with usage_count 0
    and max_usages_allowed 10. Ten requests present it (each by a token
    within its expiry window, or by the session): each is answered with
    the flag true, the k-th with usage_count k, and the row then holds
    usage_count 10. The eleventh such request ends with the flag false and
    the row at usage_count 11, deactivated. A twelfth request naming that
    visitor by token or by session, at any time, ends as a non-visitor and
    the row is unchanged, still deactivated. *)
Theorem usage_limit_scenario (cfg : Config) (v : Visitor) (w : World)
        (first_ten : list (Z * HttpRequest))
        (t11 : Z) (r11 : HttpRequest) (t12 : Z) (r12 : HttpRequest) :
  usage_count v = 0%Z -> max_usages_allowed v = 10%Z ->
  is_active v = true -> uuid v <> "" ->
  db w !! uuid v = Some v ->
  length first_ten = 10%nat ->
  Forall (fun tr => presents cfg v tr.1 tr.2) first_ten ->
  presents cfg v t11 r11 ->
  names_only cfg (uuid v) r12 ->
  exists outs w10 o11 w11 o12 w12,
    serve_all cfg first_ten w = (outs, w10) /\
    length outs = 10%nat /\
    (forall (i : nat) o, outs !! i = Some o ->
       exists r, o = Ok r /\ is_visitor r = true /\
                 visitor r = Some (set_usage_count (Z.of_nat i + 1) v)) /\
    db w10 !! uuid v = Some (set_usage_count 10 v) /\
    serve cfg t11 r11 w10 = (Ok o11, w11) /\
    is_visitor o11 = false /\
    db w11 !! uuid v = Some (set_is_active false (set_usage_count 11 v)) /\
    serve cfg t12 r12 w11 = (Ok o12, w12) /\
    is_visitor o12 = false /\ visitor o12 = None /\
    db w12 !! uuid v = Some (set_is_active false (set_usage_count 11 v)).
Proof.
  intros Hc Hm Ha Hid Hdb Hlen Hall H11 H12.
  destruct (serve_all_presenting cfg first_ten v w Hid Hdb Ha Hall)
    as (outs & w10 & E & Hlo & Houts & Hdb10); [rewrite Hc, Hm, Hlen; lia|].
  rewrite Hc, Hlen in Hdb10. simpl in Hdb10.
  set (v10 := set_usage_count 10 v) in *.
  destruct (serve_presenting_trip cfg v10 t11 r11 w10 Hid Hdb10 Ha H11)
    as (o11 & E11 & Hf11 & _); [simpl; lia|].
  set (w11 := write (revoked v10) (write (counted v10) (set_now t11 w10))) in *.
  assert (revoked v10 = set_is_active false (set_usage_count 11 v)) as Erev
      by reflexivity.
  assert (db w11 !! uuid v = Some (revoked v10)) as Hdb11
      by apply (db_write_same (revoked v10)).
  destruct (serve_inactive cfg (revoked v10) t12 r12 w11 Hdb11 eq_refl H12)
    as (o12 & w12 & E12 & Hf12 & Hv12 & Hdb12).
  exists outs, w10, o11, w11, o12, w12.
  split; [exact E|]. split; [congruence|]. split.
  { intros i o Ho. destruct (Houts i o Ho) as (r & -> & Hf & Hv & _).
    exists r. split; [reflexivity|]. split; [exact Hf|].
    rewrite Hv, Hc. reflexivity. }
  split; [exact Hdb10|]. split; [exact E11|]. split; [exact Hf11|].
  split; [rewrite <- Erev; exact Hdb11|]. split; [exact E12|].
  split; [exact Hf12|]. split; [exact Hv12|].
  rewrite <- Erev. exact Hdb12.
Qed.

Lemma usage_limit_scenario_witness :
  let v := fixture.fred in
  let w := fixture.world_at 1000 [v] in
  let by_token := fixture.request (Some (uuid v)) None in
  let by_session := fixture.request None (Some (uuid v)) in
  let first_ten := (1100%Z, by_token) :: replicate 9 (5000%Z, by_session) in
  exists outs w10 o11 w11 o12 w12,
    serve_all defaults first_ten w = (outs, w10) /\
    length outs = 10%nat /\
    (forall (i : nat) o, outs !! i = Some o ->
       exists r, o = Ok r /\ is_visitor r = true /\
                 visitor r = Some (set_usage_count (Z.of_nat i + 1) v)) /\
    db w10 !! uuid v = Some (set_usage_count 10 v) /\
    serve defaults 6000 by_session w10 = (Ok o11, w11) /\
    is_visitor o11 = false /\
    db w11 !! uuid v = Some (set_is_active false (set_usage_count 11 v)) /\
    serve defaults 1100 by_token w11 = (Ok o12, w12) /\
    is_visitor o12 = false /\ visitor o12 = None /\
    db w12 !! uuid v = Some (set_is_active false (set_usage_count 11 v)).
Proof.
  intros v w by_token by_session first_ten.
  apply (usage_limit_scenario defaults v w first_ten 6000 by_session 1100 by_token).
  - reflexivity.
  - reflexivity.
  - reflexivity.
  - discriminate.
  - reflexivity.
  - reflexivity.
  - repeat (apply Forall_cons; split;
            [first [left; split; [reflexivity|simpl; lia]
                   |right; split; reflexivity]|]).
    apply Forall_nil. exact I.
  - right. split; reflexivity.
  - split; intros s [= <-]; left; reflexivity.
Defined.

(** C2. A request presents the token of an existing visitor that fails the
    validity predicate (inactive, or created more than the token expiry
    ago). The Token Extractor raises nothing and hands on the request with
    context cleared and flag false, and the visitor's row is now
    deactivated. Through the whole chain the view sees context null and flag
    false, provided the session names no other, active visitor. Presenting
    the same token again, at any clock time, gives the same outcome and the
    row stays deactivated. *)
Theorem invalid_token_deactivates (cfg : Config) (r : HttpRequest) (w : World)
        (v : Visitor) :
  token cfg r = Some (uuid v) -> uuid v <> "" ->
  db w !! uuid v = Some v ->
  models.is_valid cfg (now w) v = false ->
  let gone := set_is_active false v in
  let w' := write gone w in
  (forall (R : Type) (get_response : HttpRequest -> M R),
      VisitorRequestMiddleware cfg get_response r w = get_response (cleared r) w') /\
  visitor (cleared r) = None /\ is_visitor (cleared r) = false /\
  db w' !! uuid v = Some gone /\ is_active gone = false /\
  ((forall s x, stashed cfg r = Some s -> db w !! s = Some x ->
                is_active x = true -> s = uuid v) ->
   exists r',
     (forall (R : Type) (view : HttpRequest -> M R),
         pipeline cfg view r w = view r' w') /\
     visitor r' = None /\ is_visitor r' = false) /\
  (forall (t : Z) (r2 : HttpRequest),
      token cfg r2 = Some (uuid v) ->
      let w2 := write gone (set_now t w') in
      (forall (R : Type) (get_response : HttpRequest -> M R),
          VisitorRequestMiddleware cfg get_response r2 (set_now t w')
          = get_response (cleared r2) w2) /\
      db w2 !! uuid v = Some gone /\
      ((forall s x, stashed cfg r2 = Some s -> db w' !! s = Some x ->
                    is_active x = true -> s = uuid v) ->
       exists r2',
         (forall (R : Type) (view : HttpRequest -> M R),
             pipeline cfg view r2 (set_now t w') = view r2' w2) /\
         visitor r2' = None /\ is_visitor r2' = false)).
Proof.
  intros Ht Hid Hdb Hv gone w'.
  assert (db w' !! uuid v = Some gone) as Hdb' by apply (db_write_same gone).
  split; [intros; eapply request_invalid_token; eassumption|].
  split; [reflexivity|]. split; [reflexivity|].
  split; [exact Hdb'|]. split; [reflexivity|]. split.
  - intros Hs. eapply pipeline_invalid_token; eassumption.
  - intros t r2 Ht2 w2.
    assert (models.is_valid cfg (now (set_now t w')) gone = false) as Hv2
        by (apply is_valid_inactive; reflexivity).
    split; [|split].
    + intros R k.
      apply (request_invalid_token cfg k r2 (set_now t w') (uuid v) gone Ht2 Hid Hdb' Hv2).
    + apply (db_write_same gone).
    + intros Hs2.
      apply (pipeline_invalid_token cfg r2 (set_now t w') gone Ht2 Hid Hdb' Hv2 Hs2).
Qed.

Lemma invalid_token_deactivates_witness :
  let v := fixture.fred in
  let r := fixture.request (Some (uuid v)) None in
  let w := fixture.world_at 1301 [v] in
  let gone := set_is_active false v in
  models.is_valid defaults (now w) v = false /\
  VisitorRequestMiddleware defaults echo r w = (Ok (cleared r), write gone w) /\
  (exists r', pipeline defaults echo r w = (Ok r', write gone w) /\
              visitor r' = None /\ is_visitor r' = false) /\
  (exists r', pipeline defaults echo r (set_now 1000 (write gone w))
              = (Ok r', write gone (set_now 1000 (write gone w))) /\
              visitor r' = None /\ is_visitor r' = false).
Proof.
  intros v r w gone.
  split; [reflexivity|].
  destruct (invalid_token_deactivates defaults r w v)
    as (E & _ & _ & _ & _ & P & N);
    [reflexivity|discriminate|reflexivity|reflexivity|].
  split; [apply E|]. split.
  - destruct P as (r' & P & Hv & Hf); [intros s x [=]|].
    exists r'. split; [apply P|]. split; assumption.
  - destruct (N 1000%Z r eq_refl) as (_ & _ & Q).
    destruct Q as (r' & Q & Hv & Hf); [intros s x [=]|].
    exists r'. split; [apply Q|]. split; assumption.
Defined.

(** C3. Round trip of the identifier through the session. A request
    presents the valid token of a stored visitor: the token and session
    stages hand on the request with flag true, that visitor in context and
    its identifier in the session under the fixed key, and so does any
    other presentation of the token while it is valid. A request with no
    token but that session is handed on with flag true and the visitor's
    row in context, as long as the row is active. Stashing again changes
    nothing. Through the whole chain, for a visitor with three usages left,
    the two token requests and the session request that follows all end
    with flag true and that visitor in context. *)
Theorem session_round_trip (cfg : Config) (v : Visitor) (w : World)
        (t1 : Z) (r1 : HttpRequest) (t2 : Z) (r2 : HttpRequest) :
  uuid v <> "" -> db w !! uuid v = Some v -> is_active v = true ->
  token cfg r1 = Some (uuid v) ->
  (t1 - created_at v <= VISITOR_TOKEN_EXPIRY cfg)%Z ->
  token cfg r2 = Some (uuid v) ->
  (t2 - created_at v <= VISITOR_TOKEN_EXPIRY cfg)%Z ->
  let r1' := stashing cfg v (identified v (cleared r1)) in
  (* token and session stages, first request *)
  (forall (R : Type) (get_response : HttpRequest -> M R),
      VisitorRequestMiddleware cfg (VisitorSessionMiddleware cfg get_response)
        r1 (set_now t1 w)
      = get_response r1' (set_now t1 w)) /\
  is_visitor r1' = true /\ visitor r1' = Some v /\
  stashed cfg r1' = Some (uuid v) /\
  (* any other presentation of the token while it is valid *)
  (forall (w2 : World) (v2 : Visitor),
      db w2 !! uuid v = Some v2 ->
      models.is_valid cfg (now w2) v2 = true ->
      forall (R : Type) (get_response : HttpRequest -> M R),
        VisitorRequestMiddleware cfg (VisitorSessionMiddleware cfg get_response)
          r2 w2
        = get_response (stashing cfg v2 (identified v2 (cleared r2))) w2) /\
  (* no token, the session of the first request *)
  (forall (r3 : HttpRequest) (w3 : World) (v3 : Visitor),
      truthy (token cfg r3) = false ->
      session r3 = session r1' ->
      db w3 !! uuid v = Some v3 -> is_active v3 = true ->
      forall (R : Type) (get_response : HttpRequest -> M R),
        VisitorRequestMiddleware cfg (VisitorSessionMiddleware cfg get_response)
          r3 w3
        = get_response (identified v3 (cleared r3)) w3) /\
  (* stashing the same identifier again *)
  (forall w', session.stash_visitor_uuid cfg r1' w' = (Ok r1', w')) /\
  (* the whole chain, three usages left *)
  ((usage_count v + 3 <= max_usages_allowed v)%Z ->
   exists o1 w1 o2 w2,
     serve cfg t1 r1 w = (Ok o1, w1) /\
     is_visitor o1 = true /\ visitor o1 = Some (counted v) /\
     session o1 = session r1' /\
     serve cfg t2 r2 w1 = (Ok o2, w2) /\
     is_visitor o2 = true /\ visitor o2 = Some (counted (counted v)) /\
     forall (t3 : Z) (r3 : HttpRequest),
       truthy (token cfg r3) = false ->
       session r3 = session o1 ->
       exists o3 w3,
         serve cfg t3 r3 w2 = (Ok o3, w3) /\
         is_visitor o3 = true /\
         visitor o3 = Some (counted (counted (counted v))) /\
         uuid (counted (counted (counted v))) = uuid v /\
         db w3 !! uuid v = visitor o3).
Proof.
  intros Hid Hdb Ha Ht1 He1 Ht2 He2 r1'.
  assert (stashed cfg r1' = Some (uuid v)) as Hst.
  { unfold stashed, r1', stashing; simpl. apply lookup_insert_eq. }
  split.
  { intros R k.
    rewrite (request_valid_token cfg _ r1 (set_now t1 w) (uuid v) v Ht1 Hid Hdb)
      by (apply is_valid_iff; split; assumption).
    apply session_stash. reflexivity. }
  split; [reflexivity|]. split; [reflexivity|]. split; [exact Hst|]. split.
  { intros w2 v2 Hdb2 Hv2 R k.
    rewrite (request_valid_token cfg _ r2 w2 (uuid v) v2 Ht2 Hid Hdb2 Hv2).
    apply session_stash. reflexivity. }
  split.
  { intros r3 w3 v3 Ht3 Hs3 Hdb3 Ha3 R k.
    rewrite (request_no_token cfg _ r3 w3 Ht3).
    apply (session_rehydrate cfg k (cleared r3) w3 (uuid v) v3);
      try assumption; try reflexivity.
    unfold stashed; simpl. rewrite Hs3. exact Hst. }
  split.
  { intros w'. unfold session.stash_visitor_uuid, ret; simpl.
    do 2 f_equal. unfold r1', stashing, set_session; simpl. f_equal.
    apply insert_insert_eq. }
  intros Hroom.
  destruct (serve_presenting_ok cfg v t1 r1 w Hid Hdb Ha)
    as (o1 & E1 & Hf1 & Hv1 & Hs1); [left; split; assumption|lia|].
  assert (session o1 = session r1') as Hso1.
  { unfold serve in E1.
    rewrite (pipeline_valid_token cfg echo r1 (set_now t1 w) v Ht1 Hid Hdb) in E1
      by (apply is_valid_iff; split; assumption).
    rewrite (count_within_limit echo (stashing cfg v (identified v (cleared r1)))
               (set_now t1 w) v eq_refl) in E1 by lia.
    unfold echo, ret in E1. injection E1 as <-. reflexivity. }
  set (w1 := write (counted v) (set_now t1 w)) in *.
  assert (db w1 !! uuid v = Some (counted v)) as Hdb1
      by apply (db_write_same (counted v)).
  destruct (serve_presenting_ok cfg (counted v) t2 r2 w1 Hid Hdb1 Ha)
    as (o2 & E2 & Hf2 & Hv2 & Hs2); [left; split; assumption|simpl; lia|].
  set (w2 := write (counted (counted v)) (set_now t2 w1)) in *.
  assert (db w2 !! uuid v = Some (counted (counted v))) as Hdb2
      by apply (db_write_same (counted (counted v))).
  exists o1, w1, o2, w2.
  split; [exact E1|]. split; [exact Hf1|]. split; [exact Hv1|].
  split; [exact Hso1|]. split; [exact E2|]. split; [exact Hf2|].
  split; [exact Hv2|].
  intros t3 r3 Ht3 Hs3.
  destruct (serve_presenting_ok cfg (counted (counted v)) t3 r3 w2 Hid Hdb2 Ha)
    as (o3 & E3 & Hf3 & Hv3 & _).
  { right. split; [exact Ht3|]. unfold stashed. rewrite Hs3. exact Hs1. }
  { simpl. lia. }
  exists o3, (write (counted (counted (counted v))) (set_now t3 w2)).
  split; [exact E3|]. split; [exact Hf3|]. split; [exact Hv3|].
  split; [reflexivity|].
  rewrite Hv3. apply (db_write_same (counted (counted (counted v)))).
Qed.

Lemma session_round_trip_witness :
  let v := fixture.fred in
  let w := fixture.world_at 1000 [v] in
  let by_token := fixture.request (Some (uuid v)) None in
  let by_session := fixture.request None (Some (uuid v)) in
  exists o1 w1 o2 w2 o3 w3,
    serve defaults 1100 by_token w = (Ok o1, w1) /\
    is_visitor o1 = true /\
    stashed defaults o1 = Some (uuid v) /\
    serve defaults 1200 by_token w1 = (Ok o2, w2) /\
    is_visitor o2 = true /\
    session by_session = session o1 /\
    serve defaults 9000 by_session w2 = (Ok o3, w3) /\
    is_visitor o3 = true /\
    (uuid <$> visitor o3) = Some (uuid v).
Proof.
  intros v w by_token by_session.
  destruct (session_round_trip defaults v w 1100 by_token 1200 by_token)
    as (_ & _ & _ & _ & _ & _ & _ & P);
    [discriminate|reflexivity|reflexivity|reflexivity|simpl; lia
    |reflexivity|simpl; lia|].
  destruct P as (o1 & w1 & o2 & w2 & E1 & F1 & _ & S1 & E2 & F2 & _ & N);
    [simpl; lia|].
  assert (session by_session = session o1) as S3 by (rewrite S1; reflexivity).
  destruct (N 9000%Z by_session eq_refl S3) as (o3 & w3 & E3 & F3 & V3 & _).
  exists o1, w1, o2, w2, o3, w3.
  split; [exact E1|]. split; [exact F1|].
  split; [unfold stashed; rewrite S1; reflexivity|].
  split; [exact E2|]. split; [exact F2|]. split; [exact S3|].
  split; [exact E3|]. split; [exact F3|]. rewrite V3. reflexivity.
Defined.

(** C4, as stated, fails: a visitor identified from the session is granted
    the flag although its token has expired. The visitor was created at
    1000 with the default expiry of 300 seconds; at 5000 a request with no
    token and the identifier in its session is granted. *)
Lemma session_path_ignores_expiry :
  let v := fixture.fred in
  let w := fixture.world_at 5000 [v] in
  let r := fixture.request None (Some (uuid v)) in
  db w !! uuid v = Some v /\
  models.is_valid defaults (now w) v = false /\
  exists out w',
    pipeline defaults echo r w = (Ok out, w') /\
    is_visitor out = true /\
    (uuid <$> visitor out) = Some (uuid v).
Proof.
  intros v w r. split; [reflexivity|]. split; [reflexivity|].
  eexists _, _. split; [vm_compute; reflexivity|]. split; reflexivity.
Qed.

(** C4, amended. Every grant is decided against storage as it is when the
    request arrives, nothing is remembered from earlier requests: a request
    ends with the flag set only if it names, by token or by session, a
    stored visitor whose row is active at that moment. On the token path
    the full validity predicate holds at that moment (active and within the
    token expiry window); the session path, taken only when the token
    identified nobody, checks is_active alone and not the expiry. *)
Theorem grant_requires_active (cfg : Config) (r : HttpRequest) (w : World)
        (r' : HttpRequest) (w' : World) :
  pipeline cfg echo r w = (Ok r', w') ->
  is_visitor r' = true ->
  exists id v,
    id <> "" /\ db w !! id = Some v /\ is_active v = true /\
    visitor r' = Some (counted v) /\
    ((token cfg r = Some id /\ models.is_valid cfg (now w) v = true) \/
     (stashed cfg r = Some id /\ forall x, ~ token_identifies cfg r w x)).
Proof.
  intros E Hf. apply pipeline_step_echo in E.
  destruct E as [r0 w0 r1 w1 r2 r3 w3 H1 H2 H3].
  (* the flag survives the Usage Limiter only on its middle branch *)
  destruct H3 as [r2 w1 Hv2|r2 w1 x Hv2 Hle|r2 w1 x Hv2 Hlt];
    [|simpl in Hf|discriminate Hf].
  { (* no visitor in context: the flag was never set *)
    exfalso. destruct H2; simpl in *; try congruence;
      destruct H1; simpl in *; congruence. }
  destruct H2 as [r1 w1 y Hy|r1 w1 Hy Hs|r1 w1 id Hy Hs Hid Hdb
                 |r1 w1 id y Hy Hs Hid Hdb Ha]; simpl in *.
  - (* identified by the token *)
    destruct H1 as [r0 w0 Ht|r0 w0 id Ht Hid Hdb|r0 w0 id z Ht Hid Hdb Hv
                   |r0 w0 id z Ht Hid Hdb Hv]; simpl in *; try discriminate.
    injection Hy as ->. injection Hv2 as ->.
    exists id, x. split; [exact Hid|]. split; [exact Hdb|].
    split; [eapply is_valid_active; exact Hv|]. split; [reflexivity|].
    left. split; assumption.
  - congruence.
  - congruence.
  - (* identified from the session *)
    injection Hv2 as ->.
    assert (db w0 !! id = Some x /\ forall z, ~ token_identifies cfg r0 w0 z)
      as [Hdb0 Hn].
    { destruct H1 as [r0 w0 Ht|r0 w0 id' Ht Hid' Hdb'|r0 w0 id' z Ht Hid' Hdb' Hv
                     |r0 w0 id' z Ht Hid' Hdb' Hv]; simpl in *; try discriminate.
      - split; [exact Hdb|]. intros z (i & Hi & Hne & _).
        rewrite Hi in Ht. rewrite (truthy_of i Hne) in Ht. discriminate.
      - split; [exact Hdb|]. intros z (i & Hi & _ & Hz & _). congruence.
      - split.
        + destruct (decide (uuid (set_is_active false z) = id)) as [<-|Hne].
          * simpl in Hdb. rewrite lookup_insert_eq in Hdb.
            injection Hdb as <-. discriminate.
          * rewrite lookup_insert_ne in Hdb by exact Hne. exact Hdb.
        + intros q (i & Hi & _ & Hq & Hqv). congruence. }
    exists id, x. split; [exact Hid|]. split; [exact Hdb0|].
    split; [exact Ha|]. split; [reflexivity|].
    right. split; [|exact Hn].
    destruct H1; simpl in *; exact Hs.
Qed.

Lemma grant_requires_active_witness :
  let v := fixture.fred in
  let w := fixture.world_at 5000 [v] in
  let r := fixture.request None (Some (uuid v)) in
  let r' := set_visitor (Some (counted v)) (identified v r) in
  pipeline defaults echo r w = (Ok r', write (counted v) w) /\
  exists id x,
    db w !! id = Some x /\ is_active x = true /\
    visitor r' = Some (counted x) /\
    ((token defaults r = Some id /\ models.is_valid defaults (now w) x = true) \/
     stashed defaults r = Some id).
Proof.
  intros v w r r'.
  assert (pipeline defaults echo r w = (Ok r', write (counted v) w)) as E
      by (vm_compute; reflexivity).
  split; [exact E|].
  destruct (grant_requires_active defaults r w r' _ E eq_refl)
    as (id & x & _ & Hdb & Ha & Hv & [Ht|[Hs _]]);
    exists id, x; (split; [exact Hdb|]); (split; [exact Ha|]);
    (split; [exact Hv|]); [left; exact Ht|right; exact Hs].
Defined.

(** C5. Self-healing of stale sessions. The session of a request holds an
    identifier that resolves to no active visitor (no row, or a deactivated
    one). The Session Synchronizer, reached without a visitor identified from
    the token, deletes the session key and hands the request on unchanged
    otherwise. Through the whole chain, when the token identifies nobody,
    the view sees flag false, context null and a session without the
    identifier; and the next request with that session and no token is again
    a non-visitor, whatever the table then holds. *)
Theorem stale_session_self_heals (cfg : Config) (r : HttpRequest) (w : World)
        (id : string) :
  stashed cfg r = Some id -> id <> "" ->
  (forall v, db w !! id = Some v -> is_active v = false) ->
  (visitor r = None ->
   forall (R : Type) (get_response : HttpRequest -> M R),
     VisitorSessionMiddleware cfg get_response r w
     = get_response (session.clear_visitor_uuid cfg r) w) /\
  stashed cfg (session.clear_visitor_uuid cfg r) = None /\
  ((forall v, ~ token_identifies cfg r w v) ->
   let r' := session.clear_visitor_uuid cfg (cleared r) in
   (exists w',
       forall (R : Type) (view : HttpRequest -> M R),
         pipeline cfg view r w = view r' w') /\
   visitor r' = None /\ is_visitor r' = false /\ stashed cfg r' = None /\
   forall (r2 : HttpRequest) (w2 : World),
     session r2 = session r' ->
     truthy (token cfg r2) = false ->
     forall (R : Type) (view : HttpRequest -> M R),
       pipeline cfg view r2 w2 = view (cleared r2) w2).
Proof.
  intros Hs Hid Hdb.
  assert (forall q, stashed cfg (session.clear_visitor_uuid cfg q) = None) as Hclr.
  { intros q. unfold stashed, session.clear_visitor_uuid; simpl.
    apply lookup_delete_eq. }
  split; [intros Hv R k; eapply session_stale; eassumption|].
  split; [apply Hclr|].
  intros Hn r'. split; [|split; [reflexivity|split; [reflexivity|split; [apply Hclr|]]]].
  - destruct (request_not_identified cfg r w Hn) as (w1 & E & Hw).
    exists w1. intros R view. unfold pipeline. rewrite E.
    rewrite (session_stale cfg _ (cleared r) w1 id eq_refl Hs Hid).
    + apply count_no_visitor. reflexivity.
    + eapply inactive_after_deactivation; eassumption.
  - intros r2 w2 Hs2 Ht2 R view. unfold pipeline.
    rewrite (request_no_token cfg _ r2 w2 Ht2).
    rewrite (session_empty cfg _ (cleared r2) w2 eq_refl).
    + apply count_no_visitor. reflexivity.
    + unfold stashed; simpl. rewrite Hs2. fold (stashed cfg r'). subst r'.
      rewrite Hclr. reflexivity.
Qed.

Lemma stale_session_self_heals_witness :
  let gone := set_is_active false fixture.fred in
  let r := fixture.request None (Some (uuid gone)) in
  let w := fixture.world_at 5000 [gone] in
  let r' := session.clear_visitor_uuid defaults (cleared r) in
  stashed defaults r = Some (uuid gone) /\
  (is_active <$> db w !! uuid gone) = Some false /\
  (exists w', pipeline defaults echo r w = (Ok r', w')) /\
  is_visitor r' = false /\ visitor r' = None /\ stashed defaults r' = None /\
  pipeline defaults echo r' w = (Ok (cleared r'), w).
Proof.
  intros gone r w r'.
  split; [reflexivity|]. split; [reflexivity|].
  destruct (stale_session_self_heals defaults r w (uuid gone))
    as (_ & _ & P); [reflexivity|discriminate| |].
  { intros v. vm_compute. intros [= <-]. reflexivity. }
  destruct P as ((w' & P) & Hv & Hf & Hc & N).
  { intros v (id & Ht & _). discriminate Ht. }
  split; [exists w'; apply P|].
  split; [exact Hf|]. split; [exact Hv|]. split; [exact Hc|].
  apply (N r' w); reflexivity.
Defined.

(** C6. Deactivation is terminal. With unique identifiers in the table, a
    visitor whose row is deactivated stays so through any sequence of
    requests, whatever tokens and sessions they carry and whenever they
    arrive: no request raises, the row is never written back (it stays the
    very same row, whatever its usage count and age), and no request ends
    with that visitor in context, so none is flagged as that visitor. *)
Theorem deactivation_is_terminal (cfg : Config) (id : string) (v : Visitor)
        (rs : list (Z * HttpRequest)) :
  forall (w : World),
    unique_ids (db w) ->
    db w !! id = Some v ->
    is_active v = false ->
    exists outs w',
      serve_all cfg rs w = (outs, w') /\
      db w' !! id = Some v /\
      Forall (fun o => exists r, o = Ok r /\
                         forall x, visitor r = Some x -> uuid x <> id) outs /\
      Forall (fun o => ~ granted id o) outs.
Proof.
  induction rs as [|[t r] rs IH]; intros w U Hdb Ha.
  - exists [], w. repeat split; try assumption; apply Forall_nil; exact I.
  - destruct (serve_step cfg t r w) as (r' & w1 & E & H).
    destruct (pipeline_step_table cfg _ _ _ _ H U) as (U1 & K & V).
    assert (db w1 !! id = Some v) as Hdb1 by (apply K; assumption).
    destruct (IH w1 U1 Hdb1 Ha) as (outs & w' & Es & Hdb' & Houts & Hng).
    assert (forall x, visitor r' = Some x -> uuid x <> id) as Hno.
    { intros x Hx Heq. destruct (V x Hx) as (x0 & Hx0 & Ha0).
      rewrite Heq in Hx0. simpl in Hx0. congruence. }
    exists (Ok r' :: outs), w'. cbn [serve_all]. rewrite E, Es.
    split; [reflexivity|]. split; [exact Hdb'|]. split.
    + apply Forall_cons. split; [|exact Houts].
      exists r'. split; [reflexivity|exact Hno].
    + apply Forall_cons. split; [|exact Hng].
      intros (q & x & [= <-] & _ & Hx & Heq). exact (Hno x Hx Heq).
Qed.

Lemma deactivation_is_terminal_witness :
  let gone := set_is_active false fixture.fred in
  let w := fixture.world_at 1000 [gone; fixture.wilma] in
  let rs := [(1100%Z, fixture.request (Some (uuid gone)) None);
             (1200%Z, fixture.request None (Some (uuid gone)));
             (1250%Z, fixture.request (Some (uuid fixture.wilma))
                        (Some (uuid gone)))] in
  exists outs w',
    serve_all defaults rs w = (outs, w') /\
    db w' !! uuid gone = Some gone /\
    Forall (fun o => ~ granted (uuid gone) o) outs.
Proof.
  intros gone w rs.
  destruct (deactivation_is_terminal defaults (uuid gone) gone rs w)
    as (outs & w' & E & D & _ & G).
  - apply map_Forall_to_list. vm_compute.
    repeat (apply Forall_cons; split; [reflexivity|]). apply Forall_nil. exact I.
  - reflexivity.
  - reflexivity.
  - exists outs, w'. split; [exact E|]. split; [exact D|exact G].
Defined.

(** C7. A stored, active, non-expired visitor presents its identifier as
    the token. The Token Extractor hands on the request with flag true and
    context equal to that visitor, without touching the table. Through the
    whole chain the view still sees flag true and that visitor in context
    (its usage counted once) as long as the visitor has a usage left, which
    a newly created visitor with a positive allowance has. *)
Theorem valid_token_identifies (cfg : Config) (r : HttpRequest) (w : World)
        (v : Visitor) :
  token cfg r = Some (uuid v) -> uuid v <> "" ->
  db w !! uuid v = Some v ->
  is_active v = true ->
  (now w - created_at v <= VISITOR_TOKEN_EXPIRY cfg)%Z ->
  (forall (R : Type) (get_response : HttpRequest -> M R),
      VisitorRequestMiddleware cfg get_response r w
      = get_response (identified v (cleared r)) w) /\
  is_visitor (identified v (cleared r)) = true /\
  visitor (identified v (cleared r)) = Some v /\
  ((usage_count v < max_usages_allowed v)%Z ->
   exists r',
     (forall (R : Type) (view : HttpRequest -> M R),
         pipeline cfg view r w = view r' (write (counted v) w)) /\
     is_visitor r' = true /\
     visitor r' = Some (counted v) /\
     uuid (counted v) = uuid v /\
     db (write (counted v) w) !! uuid v = Some (counted v)).
Proof.
  intros Ht Hid Hdb Ha Hexp.
  assert (models.is_valid cfg (now w) v = true) as Hv
      by (apply is_valid_iff; split; assumption).
  split; [intros; eapply request_valid_token; eassumption|].
  split; [reflexivity|]. split; [reflexivity|].
  intros Hlt.
  exists (set_visitor (Some (counted v)) (stashing cfg v (identified v (cleared r)))).
  split.
  - intros R view.
    rewrite (pipeline_valid_token cfg view r w v Ht Hid Hdb Hv).
    apply count_within_limit; [reflexivity|lia].
  - repeat split. apply (db_write_same (counted v)).
Qed.

Lemma valid_token_identifies_witness :
  let v := fixture.fred in
  let r := fixture.request (Some (uuid v)) None in
  let w := fixture.world_at 1100 [v] in
  VisitorRequestMiddleware defaults echo r w = (Ok (identified v (cleared r)), w) /\
  exists r', pipeline defaults echo r w = (Ok r', write (counted v) w) /\
             is_visitor r' = true /\ visitor r' = Some (counted v).
Proof.
  intros v r w.
  destruct (valid_token_identifies defaults r w v) as (E & _ & _ & P);
    [reflexivity|discriminate|reflexivity|reflexivity|simpl; lia|].
  split; [apply E|].
  destruct P as (r' & P & F & C & _); [simpl; lia|].
  exists r'. split; [apply P|]. split; assumption.
Defined.

(** C8. A request without a token, or with a token that matches no stored
    identifier, is passed on by the Token Extractor silently: the next
    stage gets the request with flag false and context null, the table is
    not touched, and nothing is raised. The chain as a whole never raises on
    such a request, and the view sees flag false and context null whenever
    the session does not name an active visitor either. *)
Theorem absent_or_unknown_token_passes (cfg : Config) (r : HttpRequest)
        (w : World) :
  truthy (token cfg r) = false \/
  (exists id, token cfg r = Some id /\ db w !! id = None) ->
  (forall (R : Type) (get_response : HttpRequest -> M R),
      VisitorRequestMiddleware cfg get_response r w = get_response (cleared r) w) /\
  visitor (cleared r) = None /\ is_visitor (cleared r) = false /\
  (exists out w', pipeline cfg echo r w = (Ok out, w')) /\
  ((forall s x, stashed cfg r = Some s -> db w !! s = Some x ->
                is_active x = false) ->
   exists r',
     (forall (R : Type) (view : HttpRequest -> M R),
         pipeline cfg view r w = view r' w) /\
     visitor r' = None /\ is_visitor r' = false).
Proof.
  intros H.
  assert (forall (R : Type) (k : HttpRequest -> M R),
             VisitorRequestMiddleware cfg k r w = k (cleared r) w) as E.
  { intros R k. destruct H as [Ht|(id & Ht & Hdb)].
    - apply request_no_token, Ht.
    - eapply request_unknown_token; eassumption. }
  split; [exact E|]. split; [reflexivity|]. split; [reflexivity|]. split.
  - destruct (pipeline_runs cfg r w) as (out & w' & _ & P).
    exists out, w'. apply P.
  - intros Hs.
    destruct (pipeline_rest_no_visitor cfg (cleared r) w eq_refl)
      as (r' & P & Hv & Hf & _); [intros s x ? _; apply Hs; assumption|].
    exists r'. split; [|split; assumption].
    intros R view. unfold pipeline. rewrite E. apply P.
Qed.

Lemma absent_or_unknown_token_passes_witness :
  let r := fixture.request (Some "no-such-visitor") None in
  let w := fixture.world_at 1100 [fixture.fred] in
  (exists id, token defaults r = Some id /\ db w !! id = None) /\
  VisitorRequestMiddleware defaults echo r w = (Ok (cleared r), w) /\
  exists r', pipeline defaults echo r w = (Ok r', w) /\
             visitor r' = None /\ is_visitor r' = false.
Proof.
  intros r w.
  assert (exists id, token defaults r = Some id /\ db w !! id = None) as H
      by (exists "no-such-visitor"; split; reflexivity).
  split; [exact H|].
  destruct (absent_or_unknown_token_passes defaults r w (or_intror H))
    as (E & _ & _ & _ & P).
  split; [apply E|].
  destruct P as (r' & P & Hv & Hf); [intros s x [=]|].
  exists r'. split; [apply P|]. split; assumption.
Defined.

(** C9. Non-visitor passthrough. A request with no token and no identifier
    in its session goes through the three stages without any persistence
    write: the view is called on the request with context null and flag
    false, in the very world the request came in (same table, same write
    log), and what the view returns is returned as it is. *)
Theorem non_visitor_passthrough (cfg : Config) (R : Type)
        (view : HttpRequest -> M R) (r : HttpRequest) (w : World) :
  truthy (token cfg r) = false ->
  truthy (stashed cfg r) = false ->
  pipeline cfg view r w = view (cleared r) w /\
  pipeline cfg echo r w = (Ok (cleared r), w) /\
  visitor (cleared r) = None /\ is_visitor (cleared r) = false.
Proof.
  intros Ht Hs.
  assert (forall (R' : Type) (k : HttpRequest -> M R'),
             pipeline cfg k r w = k (cleared r) w) as E.
  { intros R' k. unfold pipeline.
    rewrite (request_no_token cfg _ r w Ht).
    rewrite (session_empty cfg _ (cleared r) w eq_refl Hs).
    apply count_no_visitor. reflexivity. }
  split; [apply E|]. split; [apply E|]. split; reflexivity.
Qed.

Lemma non_visitor_passthrough_witness :
  let r := fixture.request None None in
  let w := fixture.world_at 1100 [fixture.fred] in
  truthy (token defaults r) = false /\
  truthy (stashed defaults r) = false /\
  pipeline defaults echo r w = (Ok (cleared r), w).
Proof.
  intros r w. split; [reflexivity|]. split; [reflexivity|].
  apply (non_visitor_passthrough defaults HttpRequest echo r w); reflexivity.
Defined.

(** C10. When the Usage Limiter trips the limit it clears only the flag:
    the request it hands on has flag false, but its context still holds
    the visitor, now deactivated, which is also the row in storage. *)
Theorem limit_trip_keeps_context (r : HttpRequest) (w : World) (v : Visitor) :
  visitor r = Some v ->
  (max_usages_allowed v < usage_count v + 1)%Z ->
  exists r' w',
    (forall (R : Type) (get_response : HttpRequest -> M R),
        VisitorCountMiddleware get_response r w = get_response r' w') /\
    is_visitor r' = false /\
    visitor r' = Some (revoked v) /\
    is_active (revoked v) = false /\
    uuid (revoked v) = uuid v /\
    db w' !! uuid v = Some (revoked v).
Proof.
  intros Hv Hlt.
  exists (set_user_is_visitor false (set_visitor (Some (revoked v)) r)),
         (write (revoked v) (write (counted v) w)).
  split; [intros; apply count_limit_exceeded; assumption|].
  repeat split. apply (db_write_same (revoked v)).
Qed.

Lemma limit_trip_keeps_context_witness :
  let v := set_usage_count 10 fixture.fred in
  let r := identified v (fixture.request None None) in
  let w := fixture.world_at 1100 [v] in
  exists r' w',
    VisitorCountMiddleware echo r w = (Ok r', w') /\
    is_visitor r' = false /\
    visitor r' = Some (revoked v) /\
    (is_active <$> db w' !! uuid v) = Some false.
Proof.
  intros v r w.
  destruct (limit_trip_keeps_context r w v eq_refl) as (r' & w' & E & F & C & A & _ & D).
  { simpl. lia. }
  exists r', w'. split; [apply E|]. split; [exact F|]. split; [exact C|].
  rewrite D. reflexivity.
Defined.

(** * Further properties of the code *)

(** ** What the stages leave alone *)

Lemma token_step_frame (cfg : Config) r w r' w' :
  token_step cfg r w r' w' ->
  GET r' = GET r /\ session r' = session r /\ now w' = now w.
Proof. intros []; repeat split. Qed.

Lemma session_step_frame (cfg : Config) r w r' :
  session_step cfg r w r' ->
  GET r' = GET r /\
  (forall k, k <> VISITOR_SESSION_KEY cfg -> session r' !! k = session r !! k) /\
  (forall v, visitor r = Some v -> visitor r' = Some v) /\
  (is_visitor r = true -> is_visitor r' = true).
Proof.
  intros [r0 w0 v Hv|r0 w0 Hv Hs|r0 w0 id Hv Hs Hid Hdb|r0 w0 id v Hv Hs Hid Hdb Ha];
    simpl; (split; [reflexivity|]); (split; [|split; [congruence|auto]]);
    intros k Hk; try reflexivity.
  - apply lookup_insert_ne. congruence.
  - apply lookup_delete_ne. congruence.
Qed.

Lemma count_step_frame r w r' w' :
  count_step r w r' w' ->
  GET r' = GET r /\ session r' = session r /\ now w' = now w.
Proof. intros []; repeat split. Qed.

(** The chain does not trust what the incoming request claims to be:
    whatever [request.visitor] and [request.user.is_visitor] were set to
    before, the outcome is that of the request without them. *)
Theorem chain_ignores_incoming_context (cfg : Config) (R : Type)
        (view : HttpRequest -> M R) (r : HttpRequest) (o : option Visitor)
        (b : bool) (w : World) :
  pipeline cfg view (set_user_is_visitor b (set_visitor o r)) w
  = pipeline cfg view r w.
Proof. reflexivity. Qed.

(** The chain calls the view exactly once and raises nothing of its own;
    the request the view gets has the query parameters of the incoming one
    and its session, except for the entry under the session key; the clock
    is not touched. *)
Theorem chain_frame (cfg : Config) (r : HttpRequest) (w : World) :
  exists r' w',
    (forall (R : Type) (view : HttpRequest -> M R),
        pipeline cfg view r w = view r' w') /\
    GET r' = GET r /\
    (forall k, k <> VISITOR_SESSION_KEY cfg ->
               session r' !! k = session r !! k) /\
    now w' = now w.
Proof.
  destruct (pipeline_runs cfg r w) as (r' & w' & H & E).
  exists r', w'. split; [exact E|].
  destruct H as [r0 w0 r1 w1 r2 r3 w3 H1 H2 H3].
  destruct (token_step_frame _ _ _ _ _ H1) as (G1 & S1 & N1).
  destruct (session_step_frame _ _ _ _ H2) as (G2 & S2 & _).
  destruct (count_step_frame _ _ _ _ H3) as (G3 & S3 & N3).
  split; [congruence|]. split; [|congruence].
  intros k Hk. rewrite S3, (S2 k Hk), S1. reflexivity.
Qed.

(** The Session Synchronizer, on any request and in any state of the table:
    it hands the request on in the very world it got (it reads storage and
    never writes), raises nothing, leaves the query parameters and every
    other session entry alone, keeps a visitor that is already in context
    and never clears the flag. *)
Theorem session_stage_reads_only (cfg : Config) (r : HttpRequest) (w : World) :
  exists r',
    (forall (R : Type) (get_response : HttpRequest -> M R),
        VisitorSessionMiddleware cfg get_response r w = get_response r' w) /\
    GET r' = GET r /\
    (forall k, k <> VISITOR_SESSION_KEY cfg ->
               session r' !! k = session r !! k) /\
    (forall v, visitor r = Some v ->
               visitor r' = Some v /\ is_visitor r' = is_visitor r /\
               stashed cfg r' = Some (uuid v)) /\
    (is_visitor r = true -> is_visitor r' = true).
Proof.
  destruct (VisitorSessionMiddleware_runs cfg r w) as (r' & H & E).
  exists r'. split; [exact E|].
  destruct (session_step_frame _ _ _ _ H) as (G & S & V & F).
  split; [exact G|]. split; [exact S|]. split; [|exact F].
  intros v Hv. destruct H; simpl in *; try congruence.
  assert (v0 = v) as -> by congruence.
  split; [exact Hv|]. split; [reflexivity|].
  unfold stashed; simpl. apply lookup_insert_eq.
Qed.

(** An empty identifier counts as none. An empty token is not looked up:
    the Token Extractor hands the cleared request on in the world as it
    is, even when a row is stored under the empty identifier. An empty
    stashed identifier is not looked up either, and it is not removed from
    the session. *)
Theorem empty_identifier_is_absent (cfg : Config) (r : HttpRequest) (w : World) :
  (token cfg r = Some "" ->
   forall (R : Type) (get_response : HttpRequest -> M R),
     VisitorRequestMiddleware cfg get_response r w = get_response (cleared r) w) /\
  (visitor r = None -> stashed cfg r = Some "" ->
   forall (R : Type) (get_response : HttpRequest -> M R),
     VisitorSessionMiddleware cfg get_response r w = get_response r w).
Proof.
  split.
  - intros Ht R k. apply request_no_token. rewrite Ht. reflexivity.
  - intros Hv Hs R k. apply session_empty; [exact Hv|]. rewrite Hs. reflexivity.
Qed.

Lemma empty_identifier_is_absent_witness :
  let nobody := set_is_active false (set_usage_count 0
                  {| uuid := ""; email := "nobody@example.com"; scope := "foo";
                     created_at := 0; is_active := true; usage_count := 0;
                     max_usages_allowed := 10 |}) in
  let w := fixture.world_at 5000 [nobody] in
  let r := fixture.request (Some "") (Some "") in
  db w !! "" = Some nobody /\
  VisitorRequestMiddleware defaults echo r w = (Ok (cleared r), w) /\
  VisitorSessionMiddleware defaults echo r w = (Ok r, w) /\
  stashed defaults r = Some "".
Proof.
  intros nobody w r.
  destruct (empty_identifier_is_absent defaults r w) as (T & S).
  split; [reflexivity|]. split; [apply T; reflexivity|].
  split; [apply S; reflexivity|reflexivity].
Defined.



(** ** The Usage Limiter on its own *)

(** What the Usage Limiter does to storage, on any request: nothing
    without a visitor in context; with one, one write when the allowance
    still holds and two when it is exceeded, all of them to the row of that
    visitor; every other row and the clock are left alone, and the row ends
    up equal to the visitor in context. *)
Theorem count_stage_writes (r : HttpRequest) (w : World) :
  exists r' w',
    (forall (R : Type) (get_response : HttpRequest -> M R),
        VisitorCountMiddleware get_response r w = get_response r' w') /\
    now w' = now w /\
    match visitor r with
    | None => r' = r /\ w' = w
    | Some v =>
        (exists new,
            saved w' = new ++ saved w /\
            Forall (fun x => uuid x = uuid v) new /\
            length new
            = if bool_decide (max_usages_allowed v < usage_count v + 1)%Z
              then 2%nat else 1%nat) /\
        (forall k, k <> uuid v -> db w' !! k = db w !! k) /\
        db w' !! uuid v = visitor r'
    end.
Proof.
  destruct (visitor r) as [v|] eqn:Hv.
  - destruct (decide (usage_count v + 1 <= max_usages_allowed v)%Z) as [Hle|Hgt].
    + exists (set_visitor (Some (counted v)) r), (write (counted v) w).
      split; [intros; apply count_within_limit; assumption|].
      split; [reflexivity|]. split; [|split].
      * exists [counted v]. split; [reflexivity|].
        split; [repeat constructor|].
        rewrite bool_decide_eq_false_2 by lia. reflexivity.
      * intros k Hk. apply db_write_other. simpl. congruence.
      * apply (db_write_same (counted v)).
    + exists (set_user_is_visitor false (set_visitor (Some (revoked v)) r)),
             (write (revoked v) (write (counted v) w)).
      split; [intros; apply count_limit_exceeded; [assumption|lia]|].
      split; [reflexivity|]. split; [|split].
      * exists [revoked v; counted v]. split; [reflexivity|].
        split; [repeat constructor|].
        rewrite bool_decide_eq_true_2 by lia. reflexivity.
      * intros k Hk. rewrite !db_write_other; [reflexivity| |]; simpl; congruence.
      * apply (db_write_same (revoked v)).
  - exists r, w. split; [intros; apply count_no_visitor, Hv|].
    split; [reflexivity|]. split; reflexivity.
Qed.

(** What the Usage Limiter does to the request that carries a visitor. It
    counts by the context alone, whatever the flag and whatever is_active
    of the visitor in hand: the usage count goes up by one; the flag and
    is_active stay as they were while the new count is within the
    allowance and are both false beyond it. It never sets the flag, never
    drops the visitor from the context, and leaves the query parameters
    and the session alone. *)
Theorem count_stage_request (r : HttpRequest) (w : World) (v : Visitor) :
  visitor r = Some v ->
  let within := bool_decide (usage_count v + 1 <= max_usages_allowed v)%Z in
  exists r' w' v',
    (forall (R : Type) (get_response : HttpRequest -> M R),
        VisitorCountMiddleware get_response r w = get_response r' w') /\
    visitor r' = Some v' /\
    usage_count v' = (usage_count v + 1)%Z /\
    is_active v' = is_active v && within /\
    is_visitor r' = is_visitor r && within /\
    uuid v' = uuid v /\ max_usages_allowed v' = max_usages_allowed v /\
    created_at v' = created_at v /\
    GET r' = GET r /\ session r' = session r.
Proof.
  intros Hv within. subst within.
  destruct (decide (usage_count v + 1 <= max_usages_allowed v)%Z) as [Hle|Hgt].
  - exists (set_visitor (Some (counted v)) r), (write (counted v) w), (counted v).
    split; [intros; apply count_within_limit; assumption|].
    rewrite bool_decide_eq_true_2 by exact Hle. rewrite !andb_true_r.
    repeat split.
  - exists (set_user_is_visitor false (set_visitor (Some (revoked v)) r)),
           (write (revoked v) (write (counted v) w)), (revoked v).
    split; [intros; apply count_limit_exceeded; [assumption|lia]|].
    rewrite bool_decide_eq_false_2 by exact Hgt. rewrite !andb_false_r.
    repeat split.
Qed.

Lemma count_stage_request_witness :
  let v := set_is_active false fixture.fred in
  let r := set_visitor (Some v) (fixture.request None None) in
  let w := fixture.world_at 1100 [v] in
  is_visitor r = false /\ is_active v = false /\
  exists r' w' v',
    VisitorCountMiddleware echo r w = (Ok r', w') /\
    visitor r' = Some v' /\
    usage_count v' = 1%Z /\ is_active v' = false /\ is_visitor r' = false.
Proof.
  intros v r w. split; [reflexivity|]. split; [reflexivity|].
  destruct (count_stage_request r w v eq_refl)
    as (r' & w' & v' & E & C & U & A & F & _).
  exists r', w', v'. split; [apply E|]. split; [exact C|].
  split; [exact U|]. split; [exact A|exact F].
Defined.

(** ** Token and session together *)

(** A token that identifies a visitor wins over the session: whatever the
    session held (nothing, a stale identifier, another visitor), the
    request ends with the visitor of the token in context, the same flag
    and the same writes, and the session holds that visitor's identifier. *)
Theorem fresh_token_replaces_stash (cfg : Config) (r : HttpRequest) (w : World)
        (v : Visitor) :
  token cfg r = Some (uuid v) -> uuid v <> "" ->
  db w !! uuid v = Some v ->
  models.is_valid cfg (now w) v = true ->
  exists o f w',
    uuid <$> o = Some (uuid v) /\
    forall (s : gmap string string),
    exists r',
      (forall (R : Type) (view : HttpRequest -> M R),
          pipeline cfg view (set_session s r) w = view r' w') /\
      visitor r' = o /\ is_visitor r' = f /\
      stashed cfg r' = Some (uuid v).
Proof.
  intros Ht Hid Hdb Hv.
  destruct (decide (usage_count v + 1 <= max_usages_allowed v)%Z) as [Hle|Hgt].
  - exists (Some (counted v)), true, (write (counted v) w).
    split; [reflexivity|]. intros s.
    exists (set_visitor (Some (counted v))
              (stashing cfg v (identified v (cleared (set_session s r))))).
    split.
    + intros R view.
      rewrite (pipeline_valid_token cfg view (set_session s r) w v Ht Hid Hdb Hv).
      apply count_within_limit; [reflexivity|exact Hle].
    + repeat split. unfold stashed, stashing; simpl. apply lookup_insert_eq.
  - exists (Some (revoked v)), false, (write (revoked v) (write (counted v) w)).
    split; [reflexivity|]. intros s.
    exists (set_user_is_visitor false
              (set_visitor (Some (revoked v))
                 (stashing cfg v (identified v (cleared (set_session s r)))))).
    split.
    + intros R view.
      rewrite (pipeline_valid_token cfg view (set_session s r) w v Ht Hid Hdb Hv).
      apply count_limit_exceeded; [reflexivity|lia].
    + repeat split. unfold stashed, stashing; simpl. apply lookup_insert_eq.
Qed.

Lemma fresh_token_replaces_stash_witness :
  let r := fixture.request (Some (uuid fixture.fred)) (Some (uuid fixture.wilma)) in
  let w := fixture.world_at 1100 [fixture.fred; fixture.wilma] in
  stashed defaults r = Some (uuid fixture.wilma) /\
  exists r' w',
    pipeline defaults echo r w = (Ok r', w') /\
    uuid <$> visitor r' = Some (uuid fixture.fred) /\
    stashed defaults r' = Some (uuid fixture.fred).
Proof.
  intros r w. split; [reflexivity|].
  destruct (fresh_token_replaces_stash defaults r w fixture.fred)
    as (o & f & w' & Ho & P);
    [reflexivity|discriminate|reflexivity|reflexivity|].
  destruct (P (session r)) as (r' & E & Hv & _ & Hs).
  exists r', w'. split; [apply (E HttpRequest echo)|].
  split; [rewrite Hv; exact Ho|exact Hs].
Defined.

(** A request without a token never reads the clock: at whatever time it
    is served, the view gets the same request and the table gets the same
    writes. *)
Theorem tokenless_request_ignores_clock (cfg : Config) (r : HttpRequest)
        (w : World) :
  truthy (token cfg r) = false ->
  exists r' w',
    forall (t : Z) (R : Type) (view : HttpRequest -> M R),
      pipeline cfg view r (set_now t w) = view r' (set_now t w').
Proof.
  intros Ht.
  assert (exists r2, forall (t : Z) (R : Type) (k : HttpRequest -> M R),
             VisitorSessionMiddleware cfg k (cleared r) (set_now t w)
             = k r2 (set_now t w)) as (r2 & E2).
  { destruct (truthy (stashed cfg (cleared r))) eqn:Hs.
    - apply truthy_Some in Hs as (id & Hs & Hid).
      destruct (db w !! id) as [v|] eqn:Hdb.
      + destruct (is_active v) eqn:Ha.
        * exists (identified v (cleared r)). intros t R k.
          apply (session_rehydrate cfg k (cleared r) (set_now t w) id v);
            auto.
        * exists (session.clear_visitor_uuid cfg (cleared r)). intros t R k.
          apply (session_stale cfg k (cleared r) (set_now t w) id); auto.
          simpl. congruence.
      + exists (session.clear_visitor_uuid cfg (cleared r)). intros t R k.
        apply (session_stale cfg k (cleared r) (set_now t w) id); auto.
        simpl. congruence.
    - exists (cleared r). intros t R k. apply session_empty; auto. }
  assert (exists r3 w3, forall (t : Z) (R : Type) (k : HttpRequest -> M R),
             VisitorCountMiddleware k r2 (set_now t w) = k r3 (set_now t w3))
    as (r3 & w3 & E3).
  { destruct (visitor r2) as [v|] eqn:Hv.
    - destruct (decide (usage_count v + 1 <= max_usages_allowed v)%Z) as [Hle|Hgt].
      + exists (set_visitor (Some (counted v)) r2), (write (counted v) w).
        intros t R k.
        apply (count_within_limit k r2 (set_now t w) v Hv Hle).
      + exists (set_user_is_visitor false (set_visitor (Some (revoked v)) r2)),
               (write (revoked v) (write (counted v) w)).
        intros t R k.
        apply (count_limit_exceeded k r2 (set_now t w) v Hv). lia.
    - exists r2, w. intros t R k. apply count_no_visitor, Hv. }
  exists r3, w3. intros t R view. unfold pipeline.
  rewrite (request_no_token cfg _ r (set_now t w) Ht), E2, E3. reflexivity.
Qed.

Lemma tokenless_request_ignores_clock_witness :
  let r := fixture.request None (Some (uuid fixture.fred)) in
  let w := fixture.world_at 0 [fixture.fred] in
  truthy (token defaults r) = false /\
  exists r' w',
    serve defaults 1100 r w = (Ok r', set_now 1100 w') /\
    serve defaults 999999 r w = (Ok r', set_now 999999 w') /\
    is_visitor r' = true.
Proof.
  intros r w. split; [reflexivity|].
  destruct (tokenless_request_ignores_clock defaults r w eq_refl)
    as (r' & w' & E).
  exists r', w'. split; [apply (E 1100%Z HttpRequest echo)|].
  split; [apply (E 999999%Z HttpRequest echo)|].
  pose proof (E 1100%Z HttpRequest echo) as E1.
  vm_compute in E1. injection E1 as <- _. reflexivity.
Defined.

(** ** The visitor in context at the end of the chain *)

(** What the first two stages hand to the Usage Limiter: a visitor only
    with the flag set, its identifier stashed, and its row, active, under
    that identifier. *)
Lemma identified_context (cfg : Config) r w r1 w1 r2 :
  token_step cfg r w r1 w1 ->
  session_step cfg r1 w1 r2 ->
  unique_ids (db w) ->
  unique_ids (db w1) /\
  match visitor r2 with
  | Some x =>
      db w1 !! uuid x = Some x /\ is_active x = true /\
      is_visitor r2 = true /\ stashed cfg r2 = Some (uuid x)
  | None => is_visitor r2 = false
  end.
Proof.
  intros H1 H2 U.
  destruct (token_step_table _ _ _ _ _ H1 U) as (U1 & _ & V1).
  split; [exact U1|].
  assert (is_visitor r1 = bool_decide (is_Some (visitor r1))) as F1
      by (destruct H1; reflexivity).
  destruct H2 as [r1 w1 v Hv|r1 w1 Hv Hs|r1 w1 id Hv Hs Hid Hdb
                 |r1 w1 id v Hv Hs Hid Hdb Ha]; simpl.
  - rewrite Hv. destruct (V1 v Hv) as [Hdb Ha].
    split; [exact Hdb|]. split; [exact Ha|]. split.
    + rewrite F1, Hv. reflexivity.
    + unfold stashed; simpl. apply lookup_insert_eq.
  - rewrite Hv. rewrite F1, Hv. reflexivity.
  - rewrite Hv. rewrite F1, Hv. reflexivity.
  - pose proof (U1 _ _ Hdb) as Eid. simpl in Eid.
    rewrite Eid. split; [exact Hdb|]. split; [exact Ha|].
    split; [reflexivity|]. unfold stashed in *; simpl. congruence.
Qed.

(** At the end of the chain, with unique identifiers in the table: the
    visitor in context, if any, is exactly the row in storage and its
    identifier is in the session; the flag says whether that visitor is
    active, which it is precisely while its usage count is within the
    allowance. Without a visitor in context the flag is false. *)
Theorem chain_end_coherent (cfg : Config) (r : HttpRequest) (w : World) :
  unique_ids (db w) ->
  exists r' w',
    (forall (R : Type) (view : HttpRequest -> M R),
        pipeline cfg view r w = view r' w') /\
    unique_ids (db w') /\
    match visitor r' with
    | Some x =>
        db w' !! uuid x = Some x /\
        stashed cfg r' = Some (uuid x) /\
        is_visitor r' = is_active x /\
        (is_active x = true <-> (usage_count x <= max_usages_allowed x)%Z)
    | None => is_visitor r' = false
    end.
Proof.
  intros U.
  destruct (pipeline_runs cfg r w) as (r' & w' & H & E).
  exists r', w'. split; [exact E|].
  destruct H as [r0 w0 r1 w1 r2 r3 w3 H1 H2 H3].
  destruct (identified_context _ _ _ _ _ _ H1 H2 U) as (U1 & C).
  destruct H3 as [r2 w1 Hv|r2 w1 x Hv Hle|r2 w1 x Hv Hlt]; rewrite Hv in C.
  - rewrite Hv. split; [exact U1|exact C].
  - destruct C as (Hdb & Ha & Hf & Hs). simpl.
    split; [apply (unique_ids_write (counted x) w1), U1|].
    split; [apply (db_write_same (counted x))|]. split; [exact Hs|].
    split; [congruence|]. split; [intros _; lia|intros _; exact Ha].
  - destruct C as (Hdb & Ha & Hf & Hs). simpl.
    split; [apply (unique_ids_write (revoked x) (write (counted x) w1)),
                  (unique_ids_write (counted x) w1), U1|].
    split; [apply lookup_insert_eq|]. split; [exact Hs|].
    split; [reflexivity|]. split; [discriminate|intros; lia].
Qed.

Lemma chain_end_coherent_witness :
  let v := set_usage_count 10 fixture.fred in
  let r := fixture.request None (Some (uuid v)) in
  let w := fixture.world_at 5000 [v; fixture.wilma] in
  exists r' w' x,
    pipeline defaults echo r w = (Ok r', w') /\
    visitor r' = Some x /\ db w' !! uuid x = Some x /\
    is_visitor r' = false /\ is_active x = false /\
    (max_usages_allowed x < usage_count x)%Z.
Proof.
  intros v r w.
  destruct (chain_end_coherent defaults r w) as (r' & w' & E & _ & C).
  { apply map_Forall_to_list. vm_compute.
    repeat (apply Forall_cons; split; [reflexivity|]). apply Forall_nil. exact I. }
  pose proof (E HttpRequest echo) as E1.
  assert (visitor r' = Some (revoked v)) as Hv
      by (vm_compute in E1; injection E1 as <- _; reflexivity).
  rewrite Hv in C. destruct C as (Hdb & _ & Hf & Hiff).
  exists r', w', (revoked v). split; [exact E1|]. split; [exact Hv|].
  split; [exact Hdb|]. split; [exact Hf|]. split; [reflexivity|].
  simpl. lia.
Defined.

(** ** What requests do to the table over time *)

Lemma ages_refl (v : Visitor) : ages v v.
Proof. repeat split; auto. lia. Qed.

Lemma ages_trans (v1 v2 v3 : Visitor) : ages v1 v2 -> ages v2 v3 -> ages v1 v3.
Proof.
  intros (U1 & E1 & S1 & C1 & M1 & N1 & A1) (U2 & E2 & S2 & C2 & M2 & N2 & A2).
  repeat split; try congruence; [lia|auto].
Qed.

Lemma table_ages_refl (w : World) : table_ages w w.
Proof.
  intros k. destruct (db w !! k) as [v|]; [|reflexivity].
  exists v. split; [reflexivity|apply ages_refl].
Qed.

Lemma table_ages_trans (w1 w2 w3 : World) :
  table_ages w1 w2 -> table_ages w2 w3 -> table_ages w1 w3.
Proof.
  intros H12 H23 k. specialize (H12 k). specialize (H23 k).
  destruct (db w1 !! k) as [v1|].
  - destruct H12 as (v2 & E2 & A12). rewrite E2 in H23.
    destruct H23 as (v3 & E3 & A23). exists v3.
    split; [exact E3|eapply ages_trans; eassumption].
  - rewrite H12 in H23. exact H23.
Qed.

Lemma table_ages_write (x v0 : Visitor) (w : World) :
  db w !! uuid x = Some v0 -> ages v0 x -> table_ages w (write x w).
Proof.
  intros Hdb Hag k. destruct (decide (uuid x = k)) as [<-|Hne].
  - rewrite Hdb. exists x. split; [apply db_write_same|exact Hag].
  - rewrite (db_write_other x w k Hne).
    destruct (db w !! k) as [v|] eqn:E; [|reflexivity].
    exists v. split; [reflexivity|apply ages_refl].
Qed.

Lemma ages_set_is_active_false (v : Visitor) : ages v (set_is_active false v).
Proof. repeat split; simpl; [lia|discriminate]. Qed.

Lemma ages_counted (v : Visitor) : ages v (counted v).
Proof. repeat split; simpl; [lia|auto]. Qed.

Lemma ages_revoked (v : Visitor) : ages (counted v) (revoked v).
Proof. repeat split; simpl; [lia|discriminate]. Qed.

Lemma token_step_ages (cfg : Config) r w r1 w1 :
  token_step cfg r w r1 w1 -> unique_ids (db w) -> table_ages w w1.
Proof.
  intros [r0 w0 Ht|r0 w0 id Ht Hid Hdb|r0 w0 id v Ht Hid Hdb Hv
         |r0 w0 id v Ht Hid Hdb Hv] U; try apply table_ages_refl.
  pose proof (U _ _ Hdb) as Eid. simpl in Eid.
  apply (table_ages_write (set_is_active false v) v).
  - simpl. rewrite Eid. exact Hdb.
  - apply ages_set_is_active_false.
Qed.

Lemma count_step_ages r2 w1 r3 w3 :
  count_step r2 w1 r3 w3 ->
  (forall x, visitor r2 = Some x -> db w1 !! uuid x = Some x) ->
  table_ages w1 w3.
Proof.
  intros [r w Hv|r w x Hv Hle|r w x Hv Hlt] C.
  - apply table_ages_refl.
  - apply (table_ages_write (counted x) x); [apply (C x Hv)|apply ages_counted].
  - apply (table_ages_trans _ (write (counted x) w)).
    + apply (table_ages_write (counted x) x); [apply (C x Hv)|apply ages_counted].
    + apply (table_ages_write (revoked x) (counted x));
        [apply (db_write_same (counted x))|apply ages_revoked].
Qed.

Lemma pipeline_step_ages (cfg : Config) r w r' w' :
  pipeline_step cfg r w r' w' -> unique_ids (db w) ->
  unique_ids (db w') /\ table_ages w w'.
Proof.
  intros H U. split; [apply (pipeline_step_table cfg _ _ _ _ H U)|].
  destruct H as [r0 w0 r1 w1 r2 r3 w3 H1 H2 H3].
  destruct (identified_context _ _ _ _ _ _ H1 H2 U) as (U1 & C).
  apply (table_ages_trans _ w1); [eapply token_step_ages; eassumption|].
  apply (count_step_ages _ _ _ _ H3).
  intros x Hx. rewrite Hx in C. apply C.
Qed.

(** One request and the row of one identifier: the usage count goes up by
    one exactly when the request ends with that visitor in context, and a
    request granted to that visitor leaves the count within the
    allowance. *)
Lemma pipeline_step_row (cfg : Config) r w r' w' (id : string) (v : Visitor) :
  pipeline_step cfg r w r' w' -> unique_ids (db w) ->
  db w !! id = Some v ->
  exists v',
    db w' !! id = Some v' /\
    usage_count v'
    = (usage_count v + if attributed id (Ok r') then 1 else 0)%Z /\
    (grantedb id (Ok r') = true ->
     (usage_count v' <= max_usages_allowed v')%Z).
Proof.
  intros [r0 w0 r1 w1 r2 r3 w3 H1 H2 H3] U Hdb.
  destruct (identified_context _ _ _ _ _ _ H1 H2 U) as (U1 & C).
  assert (exists v1, db w1 !! id = Some v1 /\ usage_count v1 = usage_count v)
    as (v1 & Hdb1 & Hc1).
  { destruct H1 as [r0 w0 Ht|r0 w0 i Ht Hid Hn|r0 w0 i z Ht Hid Hz Hv
                   |r0 w0 i z Ht Hid Hz Hv]; eauto.
    pose proof (U _ _ Hz) as Ei. simpl in Ei.
    destruct (decide (uuid (set_is_active false z) = id)) as [Heq|Hne].
    - exists (set_is_active false z). rewrite <- Heq.
      split; [apply db_write_same|]. simpl in Heq. simpl. congruence.
    - exists v. rewrite db_write_other by exact Hne. split; [exact Hdb|reflexivity]. }
  destruct H3 as [r2 w1 Hv|r2 w1 x Hv Hle|r2 w1 x Hv Hlt];
    rewrite Hv in C; unfold grantedb, attributed; simpl.
  - rewrite Hv. exists v1. split; [exact Hdb1|]. split; [lia|].
    rewrite andb_false_r. discriminate.
  - destruct C as (Hx & _).
    destruct (decide (uuid x = id)) as [Heq|Hne].
    + rewrite bool_decide_eq_true_2 by exact Heq.
      exists (counted x). rewrite <- Heq. split; [apply lookup_insert_eq|].
      rewrite <- Heq in Hdb1. assert (v1 = x) as -> by congruence.
      simpl. split; lia.
    + rewrite bool_decide_eq_false_2 by exact Hne.
      exists v1. rewrite lookup_insert_ne by exact Hne.
      split; [exact Hdb1|]. split; [lia|]. rewrite andb_false_r. discriminate.
  - destruct C as (Hx & _).
    destruct (decide (uuid x = id)) as [Heq|Hne].
    + rewrite bool_decide_eq_true_2 by exact Heq.
      exists (revoked x). rewrite <- Heq. split; [apply lookup_insert_eq|].
      rewrite <- Heq in Hdb1. assert (v1 = x) as -> by congruence.
      simpl. split; [lia|discriminate].
    + rewrite bool_decide_eq_false_2 by exact Hne.
      exists v1. rewrite !lookup_insert_ne by exact Hne.
      split; [exact Hdb1|]. split; [lia|discriminate].
Qed.

(** The row of one identifier over a sequence of requests. *)
Lemma serve_all_row (cfg : Config) (id : string) (rs : list (Z * HttpRequest)) :
  forall (w : World) (v : Visitor),
    unique_ids (db w) -> db w !! id = Some v ->
    exists outs w' v',
      serve_all cfg rs w = (outs, w') /\
      db w' !! id = Some v' /\
      max_usages_allowed v' = max_usages_allowed v /\
      usage_count v'
      = (usage_count v
         + Z.of_nat (length (List.filter (attributed id) outs)))%Z /\
      (Z.of_nat (length (List.filter (grantedb id) outs))
       <= Z.max 0 (max_usages_allowed v - usage_count v))%Z.
Proof.
  induction rs as [|[t r] rs IH]; intros w v U Hdb.
  - exists [], w, v. simpl. repeat split; try assumption; lia.
  - destruct (serve_step cfg t r w) as (r1 & w1 & E & H).
    destruct (pipeline_step_ages cfg _ _ _ _ H U) as (U1 & A).
    destruct (pipeline_step_row cfg _ _ _ _ id v H U Hdb)
      as (v1 & Hdb1 & Hc1 & Hg1).
    specialize (A id). simpl in A. rewrite Hdb in A.
    destruct A as (v1' & Hdb1' & (_ & _ & _ & _ & Hm1 & _)).
    assert (v1' = v1) as -> by congruence.
    destruct (IH w1 v1 U1 Hdb1) as (outs & w' & v' & Es & Hdb' & Hm & Hc & Hg).
    exists (Ok r1 :: outs), w', v'. cbn [serve_all]. rewrite E, Es.
    split; [reflexivity|]. split; [exact Hdb'|]. split; [congruence|].
    cbn [List.filter].
    assert (grantedb id (Ok r1) = true -> attributed id (Ok r1) = true) as Hga.
    { unfold grantedb. intros G. apply andb_true_iff in G as [_ G]. exact G. }
    destruct (grantedb id (Ok r1)) eqn:G.
    + rewrite (Hga eq_refl) in *. specialize (Hg1 eq_refl).
      cbn [length]. rewrite !Nat2Z.inj_succ. split; lia.
    + destruct (attributed id (Ok r1)); cbn [length];
        rewrite ?Nat2Z.inj_succ; split; lia.
Qed.

(** Over any sequence of requests, with unique identifiers in the table:
    no request raises; identifiers stay unique; no row appears and none
    goes; every row keeps its identifier, contact, scope, creation time
    and allowance; its usage count never goes down and is_active never
    comes back. *)
Theorem table_only_ages (cfg : Config) (rs : list (Z * HttpRequest)) :
  forall (w : World),
    unique_ids (db w) ->
    exists outs w',
      serve_all cfg rs w = (outs, w') /\
      Forall (fun o => exists r, o = Ok r) outs /\
      unique_ids (db w') /\
      table_ages w w'.
Proof.
  induction rs as [|[t r] rs IH]; intros w U.
  - exists [], w. split; [reflexivity|]. split; [constructor|].
    split; [exact U|apply table_ages_refl].
  - destruct (serve_step cfg t r w) as (r1 & w1 & E & H).
    destruct (pipeline_step_ages cfg _ _ _ _ H U) as (U1 & A).
    destruct (IH w1 U1) as (outs & w' & Es & Hok & U' & A').
    exists (Ok r1 :: outs), w'. cbn [serve_all]. rewrite E, Es.
    split; [reflexivity|]. split; [constructor; eauto|].
    split; [exact U'|].
    apply (table_ages_trans _ w1); [|exact A'].
    apply (table_ages_trans _ (set_now t w)); [|exact A].
    intros k. simpl. destruct (db w !! k) as [v|] eqn:Ek; [|reflexivity].
    exists v. split; [reflexivity|apply ages_refl].
Qed.

(** The usage count of a row is exact: after any sequence of requests it
    has grown by the number of requests that ended with that visitor in
    context, no more and no less. *)
Theorem usage_count_is_exact (cfg : Config) (id : string) (v : Visitor)
        (rs : list (Z * HttpRequest)) (w : World) :
  unique_ids (db w) -> db w !! id = Some v ->
  exists outs w' v',
    serve_all cfg rs w = (outs, w') /\
    db w' !! id = Some v' /\
    usage_count v'
    = (usage_count v + Z.of_nat (length (List.filter (attributed id) outs)))%Z.
Proof.
  intros U Hdb.
  destruct (serve_all_row cfg id rs w v U Hdb)
    as (outs & w' & v' & E & Hdb' & _ & Hc & _).
  exists outs, w', v'. split; [exact E|]. split; [exact Hdb'|exact Hc].
Qed.

(** A link cannot be used beyond its allowance: over any sequence of
    requests, at any times, by token or by session, the number of requests
    granted to a visitor is at most what was left of its allowance at the
    start. *)
Theorem allowance_bounds_grants (cfg : Config) (id : string) (v : Visitor)
        (rs : list (Z * HttpRequest)) (w : World) :
  unique_ids (db w) -> db w !! id = Some v ->
  exists outs w',
    serve_all cfg rs w = (outs, w') /\
    (Z.of_nat (length (List.filter (grantedb id) outs))
     <= Z.max 0 (max_usages_allowed v - usage_count v))%Z.
Proof.
  intros U Hdb.
  destruct (serve_all_row cfg id rs w v U Hdb)
    as (outs & w' & v' & E & _ & _ & _ & Hg).
  exists outs, w'. split; [exact E|exact Hg].
Qed.

Ltac unique_ids_by_computation :=
  apply map_Forall_to_list; vm_compute;
  repeat (apply Forall_cons; split; [reflexivity|]);
  apply Forall_nil; exact I.

Lemma table_only_ages_witness :
  let v := set_usage_count 9 fixture.fred in
  let w := fixture.world_at 1000 [v; fixture.wilma] in
  let rs := [(1100%Z, fixture.request (Some (uuid v)) None);
             (1200%Z, fixture.request None (Some (uuid v)));
             (1250%Z, fixture.request (Some (uuid fixture.wilma)) (Some (uuid v)))] in
  exists outs w' v',
    serve_all defaults rs w = (outs, w') /\
    db w' !! uuid v = Some v' /\ ages v v' /\
    db w' !! "no-such-visitor" = None.
Proof.
  intros v w rs.
  destruct (table_only_ages defaults rs w) as (outs & w' & E & _ & _ & A);
    [unique_ids_by_computation|].
  pose proof (A (uuid v)) as Av. pose proof (A "no-such-visitor") as An.
  change (db w !! uuid v) with (Some v) in Av.
  change (db w !! "no-such-visitor") with (@None Visitor) in An.
  destruct Av as (v' & Hdb & Hag).
  exists outs, w', v'. split; [exact E|]. split; [exact Hdb|].
  split; [exact Hag|exact An].
Defined.

Lemma usage_count_is_exact_witness :
  let v := fixture.fred in
  let w := fixture.world_at 1000 [v; fixture.wilma] in
  let rs := [(1100%Z, fixture.request (Some (uuid v)) None);
             (1200%Z, fixture.request (Some "no-such-visitor") None);
             (1250%Z, fixture.request None (Some (uuid fixture.wilma)));
             (9000%Z, fixture.request None (Some (uuid v)))] in
  exists outs w' v',
    serve_all defaults rs w = (outs, w') /\
    db w' !! uuid v = Some v' /\
    usage_count v'
    = (usage_count v
       + Z.of_nat (length (List.filter (attributed (uuid v)) outs)))%Z.
Proof.
  intros v w rs.
  apply (usage_count_is_exact defaults (uuid v) v rs w);
    [unique_ids_by_computation|reflexivity].
Defined.

Lemma allowance_bounds_grants_witness :
  let v := set_usage_count 8 fixture.fred in
  let w := fixture.world_at 1000 [v] in
  let by_token := fixture.request (Some (uuid v)) None in
  let by_session := fixture.request None (Some (uuid v)) in
  let rs := [(1100%Z, by_token); (1200%Z, by_session); (1250%Z, by_token);
             (1260%Z, by_session); (1270%Z, by_token)] in
  exists outs w',
    serve_all defaults rs w = (outs, w') /\
    (Z.of_nat (length (List.filter (grantedb (uuid v)) outs)) <= 2)%Z.
Proof.
  intros v w by_token by_session rs.
  apply (allowance_bounds_grants defaults (uuid v) v rs w);
    [unique_ids_by_computation|reflexivity].
Defined.

(** ** The debug observer *)

(** The debug observer exists only under DEBUG. Put at the end of the
    chain it changes nothing: the view is called on the same request in
    the same world and its outcome is handed back as it is. It logs the
    flag of the request as the Usage Limiter left it, and the visitor in
    context only when that flag is true: on the request that exceeds the
    allowance the visitor, though still in context, is not logged. *)
Theorem debug_observer_in_chain (DEBUG : bool) (cfg : Config) (R : Type)
        (view : HttpRequest -> M R) (r : HttpRequest) (w : World) :
  match VisitorDebugMiddleware DEBUG view with
  | inl _ => DEBUG = false
  | inr observer =>
      DEBUG = true /\
      exists r' w',
        pipeline cfg view r w = view r' w' /\
        pipeline cfg observer r w
        = (Ok (debug_records r', fst (view r' w')), snd (view r' w')) /\
        debug_records r'
        = {| log_format := "request.user.is_visitor: %s";
             log_arg := LogBool (is_visitor r') |}
          :: (if is_visitor r'
              then [ {| log_format := "request.visitor: %s";
                        log_arg := LogVisitor (visitor r') |} ]
              else [])
  end.
Proof.
  destruct DEBUG; simpl; [|reflexivity].
  split; [reflexivity|].
  destruct (pipeline_runs cfg r w) as (r' & w' & _ & E).
  exists r', w'. split; [apply E|]. split.
  - rewrite E. unfold VisitorDebugMiddleware_call.
    destruct (view r' w'); reflexivity.
  - unfold debug_records. destruct (is_visitor r'); reflexivity.
Qed.
